(** * phishing_detector.py: a shallow embedding of class PhishingDetector

    The module scores an e-mail text: every labelled regular expression of
    the configuration that matches adds its weight, a text in which the NER
    pipeline finds no organisation adds one more weight, and the total is
    mapped to one of three verdicts.

    Python data is modelled as the interpreter has it: a [str] is a sequence
    of Unicode code points, an [int] is unbounded, a [dict] read with [.get]
    is a finite map and a [dict] iterated with [.items()] is its sequence of
    entries.  The regular-expression engine, the spaCy pipeline, the file
    system and the JSON parser are libraries the module calls; they are the
    fields of [Env] and of the detector object.  Every call to one of them
    is recorded in a trace, so that "was never called" can be stated. *)

From Stdlib Require Import ZArith NArith Ascii String List Lia.
From stdpp Require Import base option list strings gmap pretty.

(** ** Strings *)

(** A Python [str]: its code points. *)
Abbreviation pystr := (list N).

(** A literal of the source (ASCII only). *)
Definition py (s : string) : pystr :=
  (fun a => N_of_ascii a) <$> list_ascii_of_string s.

(** [str.isspace] of one character, the table CPython's
    [_PyUnicode_IsWhitespace] implements. *)
Definition py_isspace (c : N) : bool :=
  ((0x09 <=? c) && (c <=? 0x0D) || (0x1C <=? c) && (c <=? 0x20)
   || (c =? 0x85) || (c =? 0xA0) || (c =? 0x1680)
   || (0x2000 <=? c) && (c <=? 0x200A)
   || (c =? 0x2028) || (c =? 0x2029) || (c =? 0x202F) || (c =? 0x205F)
   || (c =? 0x3000))%N.

Fixpoint lstrip (s : pystr) : pystr :=
  match s with
  | c :: s' => if py_isspace c then lstrip s' else s
  | [] => []
  end.

Definition rstrip (s : pystr) : pystr := reverse (lstrip (reverse s)).

(** [s.strip()]: leading and trailing white space removed. *)
Definition strip (s : pystr) : pystr := rstrip (lstrip s).

(** [sep.join(xs)]. *)
Fixpoint join (sep : pystr) (xs : list pystr) : pystr :=
  match xs with
  | [] => []
  | x :: rest =>
      match rest with
      | [] => x
      | _ :: _ => x ++ sep ++ join sep rest
      end
  end.

(** ** Values *)

(** The objects the module can be handed or can read from a JSON file.  A
    float is its IEEE 754 binary64 bit pattern; a dict is the sequence of
    its entries. *)
#[local] Unset Elimination Schemes.
Inductive pyval :=
| PyNone
| PyBool (b : bool)
| PyInt (z : Z)
| PyFloat (bits : Z)
| PyStr (s : pystr)
| PyBytes (b : list N)
| PyList (items : list pyval)
| PyDict (items : list (pystr * pyval)).
#[local] Set Elimination Schemes.

(** [bool(v)], the test behind [not v] and [if v]. *)
Definition truthy (v : pyval) : bool :=
  match v with
  | PyNone => false
  | PyBool b => b
  | PyInt z => negb (z =? 0)%Z
  | PyFloat bits => negb (Z.land bits (2 ^ 63 - 1) =? 0)%Z
  | PyStr s => match s with [] => false | _ => true end
  | PyBytes b => match b with [] => false | _ => true end
  | PyList l => match l with [] => false | _ => true end
  | PyDict d => match d with [] => false | _ => true end
  end.

Definition type_name (v : pyval) : string :=
  match v with
  | PyNone => "NoneType"
  | PyBool _ => "bool"
  | PyInt _ => "int"
  | PyFloat _ => "float"
  | PyStr _ => "str"
  | PyBytes _ => "bytes"
  | PyList _ => "list"
  | PyDict _ => "dict"
  end.

(** [isinstance(v, str)]. *)
Definition isinstance_str (v : pyval) : bool :=
  match v with PyStr _ => true | _ => false end.

(** ** Exceptions *)

(** The exception classes the module raises or names in an [except]
    clause, and those its libraries are seen to raise.  All of them derive
    from [Exception]; an [except] clause of the module that names one of
    them catches that class alone. *)
Inductive exc_class :=
| RuntimeError
| ValueError
| FileNotFoundError
| AttributeError
| TypeError
| OSError
| JSONDecodeError
| re_error
| OverflowError
| IsADirectoryError
| PermissionError
| UnicodeDecodeError
| UnicodeEncodeError.

(** An exception object: its class and [str(e)]. *)
Record exn := Exc { exc_type : exc_class; exc_str : pystr }.

(** ** Collaborators *)

(** An entity span of a spaCy document, and the document. *)
Record Span := { text : pystr; label_ : pystr }.
Record Doc := { ents : list Span }.

(** A loaded pipeline, called as [nlp(text)]. *)
Abbreviation Language := (pystr -> Doc).

(** An element of the list [re.findall] returns: the match (or its only
    group), or the tuple of groups of a pattern with several. *)
Inductive match_item :=
| MStr (s : pystr)
| MTuple (groups : list pystr).

(** What the module calls and does not define. *)
Record Env := {
  (** [spacy.load("en_core_web_sm", disable=["parser"])] *)
  spacy_load : exn + Language;
  (** reading the file at a path; [None] when there is no such file *)
  path_open : pystr -> option pystr;
  (** [json.load]; [inl msg] is a [JSONDecodeError] with [str(e) = msg] *)
  json_load : pystr -> pystr + pyval;
  (** [re.findall(pattern, text, re.IGNORECASE)]; [inl msg] is a
      [re.error] with [str(e) = msg] *)
  re_findall : pystr -> pystr -> pystr + list match_item;
  (** [repr] of a [str] *)
  repr_str : pystr -> pystr
}.

(** [str(m)] of an element of [re.findall]'s result. *)
Definition str_match (E : Env) (m : match_item) : pystr :=
  match m with
  | MStr s => s
  | MTuple groups =>
      match groups with
      | [g] => py "(" ++ repr_str E g ++ py ",)"
      | _ => py "(" ++ join (py ", ") (repr_str E <$> groups) ++ py ")"
      end
  end.

(** ** Effects *)

(** The calls that leave the module. *)
Inductive event :=
| SpacyLoad
| PathOpen (path : pystr)
| JsonLoad (content : pystr)
| ReFindall (pattern email_text : pystr)
| NlpCall (email_text : pystr)
| Stdout (line : pystr).

(** The result of running a piece of code. *)
Inductive outcome (A : Type) :=
| Return (a : A)
| Raise (e : exn).
Arguments Return {A} a.
Arguments Raise {A} e.

(** The object [self] is bound to, and the calls made so far (oldest
    first). *)
Record machine (O : Type) := Machine { self : O; trace : list event }.
Arguments Machine {O} self trace.
Arguments self {O} m.
Arguments trace {O} m.

(** Code that reads and writes [self], calls collaborators and may raise. *)
Definition M (O A : Type) : Type := machine O -> outcome A * machine O.

Definition ret {O A} (a : A) : M O A := fun m => (Return a, m).

Definition raise {O A} (e : exn) : M O A := fun m => (Raise e, m).

Definition bind {O A B} (c : M O A) (k : A -> M O B) : M O B :=
  fun m =>
    match c m with
    | (Return a, m') => k a m'
    | (Raise e, m') => (Raise e, m')
    end.

Declare Scope py_scope.
Delimit Scope py_scope with py.
Notation "x <- c ;; k" := (bind c (fun x => k))
  (at level 100, c at next level, k at level 200, right associativity)
  : py_scope.
Notation "c ;;; k" := (bind c (fun _ => k))
  (at level 100, k at level 200, right associativity) : py_scope.

(** [try: body except ...: handler]: [handler e] is [None] when no clause
    names the class of [e], which then propagates. *)
Definition try_except {O A} (body : M O A) (handler : exn -> option (M O A))
  : M O A :=
  fun m =>
    match body m with
    | (Return a, m') => (Return a, m')
    | (Raise e, m') =>
        match handler e with
        | Some h => h m'
        | None => (Raise e, m')
        end
    end.

Definition emit {O} (ev : event) : M O unit :=
  fun m => (Return tt, Machine (self m) (trace m ++ [ev])).

(** Reading an attribute of [self] that the object has. *)
Definition gets {O A} (field : O -> A) : M O A :=
  fun m => (Return (field (self m)), m).

Definition modify {O} (f : O -> O) : M O unit :=
  fun m => (Return tt, Machine (f (self m)) (trace m)).

(** [e] lifted: a library call that returns or raises. *)
Definition lift {O A} (r : exn + A) : M O A :=
  match r with
  | inl e => raise e
  | inr a => ret a
  end.


Local Open Scope py_scope.

(** The library calls, each leaving its event in the trace. *)
Definition load_spacy {O} (E : Env) : M O Language :=
  emit SpacyLoad ;;; lift (spacy_load E).

Definition open_read {O} (E : Env) (path : pystr) : M O pystr :=
  emit (PathOpen path) ;;;
  match path_open E path with
  | Some content => ret content
  | None =>
      raise (Exc FileNotFoundError
               (py "[Errno 2] No such file or directory: " ++ repr_str E path))
  end.

Definition load_json {O} (E : Env) (content : pystr) : M O pyval :=
  emit (JsonLoad content) ;;;
  match json_load E content with
  | inl msg => raise (Exc JSONDecodeError msg)
  | inr v => ret v
  end.

Definition findall {O} (E : Env) (pattern email_text : pystr)
  : M O (list match_item) :=
  emit (ReFindall pattern email_text) ;;;
  match re_findall E pattern email_text with
  | inl msg => raise (Exc re_error msg)
  | inr matches => ret matches
  end.

Definition py_print {O} (line : pystr) : M O unit := emit (Stdout line).

(** [for x in xs: body]. *)
Fixpoint for_each {O A} (body : A -> M O unit) (xs : list A) : M O unit :=
  match xs with
  | [] => ret tt
  | x :: rest => body x ;;; for_each body rest
  end.

(** ** Construction: [PhishingDetector.__init__] *)

(** Where a [def] statement stands. *)
Inductive def_scope :=
| ClassBody
| FunctionBody (owner : string).

(** The [def] statements of the class as the file indents them:
    [_load_config] is written one level inside [__init__], after its [try]
    statement, so it is a statement of that function. *)
Definition class_defs : list (string * def_scope) :=
  [ ("__init__", ClassBody);
    ("_load_config", FunctionBody "__init__");
    ("analyze_email", ClassBody);
    ("print_results", ClassBody) ].

(** The names the class body binds, which is where attribute lookup on an
    instance continues after the instance's own dictionary. *)
Definition class_namespace : list string :=
  fst <$> List.filter
            (fun d => match snd d with ClassBody => true | _ => false end)
            class_defs.

(** What an attribute of the instance under construction holds. *)
Inductive attr :=
| ANlp (nlp : Language)
| AVal (v : pyval).

(** [self.__dict__] while [__init__] runs. *)
Abbreviation instance := (gmap string attr).

Definition hasattr (inst : instance) (name : string) : bool :=
  bool_decide (is_Some (inst !! name)) || bool_decide (name ∈ class_namespace).

Definition setattr (name : string) (a : attr) : M instance unit :=
  modify (fun inst => <[name := a]> inst).

Definition dict_lookup (key : pystr) (items : list (pystr * pyval))
  : option pyval :=
  snd <$> List.find (fun kv => bool_decide (fst kv = key)) items.

(** [config.get(key, {})]. *)
Definition get_or_empty {O} (config : pyval) (key : pystr) : M O pyval :=
  match config with
  | PyDict items => ret (default (PyDict []) (dict_lookup key items))
  | _ =>
      raise (Exc AttributeError
               (py ("'" +:+ type_name config
                    +:+ "' object has no attribute 'get'")))
  end.

(** The body of the nested [def _load_config(self, path)]. *)
Definition _load_config (E : Env) (path : pystr) : M instance pyval :=
  try_except
    (f <- open_read E path ;;
     config <- load_json E f ;;
     if negb (truthy config)
     then raise (Exc ValueError (py "Empty or invalid config file"))
     else ret config)
    (fun e =>
       match exc_type e with
       | FileNotFoundError =>
           Some (raise (Exc FileNotFoundError
                          (py "Config file not found at " ++ path)))
       | JSONDecodeError =>
           Some (raise (Exc ValueError
                          (py "Invalid JSON format: " ++ exc_str e)))
       | _ => None
       end).

(** The attribute reference [self._load_config] followed by the call: the
    name is looked up on the instance and on the class; a [def] of the
    class body would be found and called, anything else is an
    [AttributeError]. *)
Definition call_self_load_config (E : Env) (config_path : pystr)
  : M instance pyval :=
  inst <- gets id ;;
  if hasattr inst "_load_config"
  then _load_config E config_path
  else raise (Exc AttributeError
                (py "'PhishingDetector' object has no attribute '_load_config'")).

(** [PhishingDetector.__init__(self, config_path)].  The [def] of
    [_load_config] that ends the body binds a local name and calls
    nothing. *)
Definition __init__ (E : Env) (config_path : pystr) : M instance unit :=
  try_except
    (nlp <- load_spacy E ;;
     setattr "nlp" (ANlp nlp) ;;;
     config <- call_self_load_config E config_path ;;
     setattr "config" (AVal config) ;;;
     patterns <- get_or_empty config (py "suspicious_patterns") ;;
     setattr "suspicious_patterns" (AVal patterns) ;;;
     rules <- get_or_empty config (py "scoring_rules") ;;
     setattr "scoring_rules" (AVal rules))
    (fun e =>
       Some (raise (Exc RuntimeError
                      (py "Initialization failed: " ++ exc_str e)))) ;;;
  ret tt.

(** [PhishingDetector(config_path)]: [__init__] on a fresh object. *)
Definition construct (E : Env) (config_path : pystr) (tr : list event)
  : outcome unit * machine instance :=
  __init__ E config_path (Machine ∅ tr).

(** ** The detector object *)

(** The attributes [__init__] assigns and the other methods read, with the
    types of the configuration file's two tables: label to pattern, in
    file order, and label to integer weight.  The methods are modelled on
    any such object; [__init__] itself hands none out (see
    [loader_unreachable]). *)
Record PhishingDetector := {
  nlp : Language;
  config : pyval;
  suspicious_patterns : list (pystr * pystr);
  scoring_rules : gmap pystr Z
}.

(** [self.scoring_rules.get(label, 0)]. *)
Definition rules_get (rules : gmap pystr Z) (label : pystr) : Z :=
  default 0%Z (rules !! label).

(** ** [analyze_email] *)

(** One turn of the loop over [self.suspicious_patterns.items()]. *)
Definition check_pattern (E : Env) (email_text label pattern : pystr)
    (acc : Z * list pystr) : M PhishingDetector (Z * list pystr) :=
  let '(score, flags) := acc in
  try_except
    (matches <- findall E pattern email_text ;;
     match matches with
     | _ :: _ =>
         rules <- gets scoring_rules ;;
         ret ((score + rules_get rules label)%Z,
              flags ++ [label ++ py " found: "
                          ++ join (py ", ") (str_match E <$> matches)])
     | [] => ret (score, flags)
     end)
    (fun e =>
       match exc_type e with
       | re_error =>
           Some (ret (score,
                      flags ++ [py "Invalid regex pattern for " ++ label
                                  ++ py ": " ++ exc_str e]))
       | _ => None
       end).

Fixpoint for_patterns (E : Env) (email_text : pystr)
    (items : list (pystr * pystr)) (acc : Z * list pystr)
  : M PhishingDetector (Z * list pystr) :=
  match items with
  | [] => ret acc
  | (label, pattern) :: rest =>
      acc' <- check_pattern E email_text label pattern acc ;;
      for_patterns E email_text rest acc'
  end.

(** The statements after the loop: named-entity recognition. *)
Definition check_organization (email_text : pystr) (acc : Z * list pystr)
  : M PhishingDetector (Z * list pystr) :=
  let '(score, flags) := acc in
  emit (NlpCall email_text) ;;;
  pipeline <- gets nlp ;;
  let doc := pipeline email_text in
  let orgs :=
    text <$> List.filter (fun ent => bool_decide (label_ ent = py "ORG"))
               (ents doc) in
  match orgs with
  | [] =>
      rules <- gets scoring_rules ;;
      ret ((score + rules_get rules (py "missing_organization"))%Z,
           flags ++ [py "No organization detected"])
  | _ :: _ => ret (score, flags)
  end.

Definition analyze_email (E : Env) (email_text : pyval)
  : M PhishingDetector (Z * list pystr) :=
  match email_text with
  | PyStr s =>
      if negb (truthy (PyStr (strip s)))
      then raise (Exc ValueError (py "Invalid or empty email text"))
      else
        items <- gets suspicious_patterns ;;
        acc <- for_patterns E s items (0%Z, []) ;;
        check_organization s acc
  | _ => raise (Exc ValueError (py "Invalid or empty email text"))
  end.

(** ** [print_results] *)

Definition likely_phishing : pystr :=
  [0x1F6D1%N] ++ py " Likely phishing attempt.".

Definition suspicious : pystr :=
  [0x26A0%N; 0xFE0F%N] ++ py " Suspicious email " ++ [0x2014%N]
    ++ py " exercise caution.".

Definition safe : pystr := [0x2705%N] ++ py " Email appears safe.".

Definition print_results (score : Z) (flags : list pystr)
  : M PhishingDetector unit :=
  py_print (py "=== PHISHING DETECTION RESULTS ===") ;;;
  py_print (py "Email Analysis Score: " ++ py (pretty score)) ;;;
  py_print (py "Flags:") ;;;
  for_each (fun flag => py_print (py "- " ++ flag))
    (match flags with [] => [py "None"] | _ :: _ => flags end) ;;;
  if (7 <=? score)%Z then py_print likely_phishing
  else if (4 <=? score)%Z && (score <? 7)%Z then py_print suspicious
  else py_print safe.

(** ** The specification's vocabulary *)

(** A text of white space only (the empty text included). *)
Definition blank (s : pystr) : bool := forallb py_isspace s.

(** The flag of an entry whose pattern matched. *)
Definition found_flag (E : Env) (label : pystr) (matches : list match_item)
  : pystr :=
  label ++ py " found: " ++ join (py ", ") (str_match E <$> matches).

(** The flag of an entry whose pattern is not a regular expression. *)
Definition invalid_flag (label msg : pystr) : pystr :=
  py "Invalid regex pattern for " ++ label ++ py ": " ++ msg.

(** An entry is triggered by a text when its pattern matches at least
    once. *)
Definition triggered (E : Env) (email_text : pystr) (entry : pystr * pystr)
  : bool :=
  match re_findall E (snd entry) email_text with
  | inr (_ :: _) => true
  | _ => false
  end.

(** The pipeline tags some entity of the text [ORG]. *)
Definition org_found (d : PhishingDetector) (email_text : pystr) : bool :=
  existsb (fun ent => bool_decide (label_ ent = py "ORG"))
    (ents (nlp d email_text)).

(** What one entry adds to the score and to the flags. *)
Definition entry_score (E : Env) (rules : gmap pystr Z) (email_text : pystr)
    (entry : pystr * pystr) : Z :=
  if triggered E email_text entry then rules_get rules (fst entry) else 0%Z.

Definition entry_flags (E : Env) (email_text : pystr)
    (entry : pystr * pystr) : list pystr :=
  match re_findall E (snd entry) email_text with
  | inl msg => [invalid_flag (fst entry) msg]
  | inr [] => []
  | inr matches => [found_flag E (fst entry) matches]
  end.

(** The detector with another table of patterns. *)
Definition with_patterns (d : PhishingDetector)
    (items : list (pystr * pystr)) : PhishingDetector :=
  {| nlp := nlp d; config := config d; suspicious_patterns := items;
     scoring_rules := scoring_rules d |}.

(** The lines [print_results] writes before the verdict. *)
Definition report_head (score : Z) (flags : list pystr) : list event :=
  [ Stdout (py "=== PHISHING DETECTION RESULTS ===");
    Stdout (py "Email Analysis Score: " ++ py (pretty score));
    Stdout (py "Flags:") ]
  ++ ((fun flag => Stdout (py "- " ++ flag))
        <$> match flags with [] => [py "None"] | _ :: _ => flags end).

(** ** A small world for the examples *)

Definition ascii_lower (c : N) : N :=
  if ((65 <=? c) && (c <=? 90))%N then (c + 32)%N else c.

Fixpoint starts_with_ci (p s : pystr) : bool :=
  match p, s with
  | [], _ => true
  | _ :: _, [] => false
  | a :: p', b :: s' => (ascii_lower a =? ascii_lower b)%N && starts_with_ci p' s'
  end.

(** The occurrences of a word in a text, left to right, not overlapping,
    ignoring the case of ASCII letters. *)
Fixpoint literal_scan (fuel : nat) (p s : pystr) : list pystr :=
  match fuel, s with
  | S fuel', _ :: s' =>
      if starts_with_ci p s
      then take (length p) s :: literal_scan fuel' p (drop (length p) s)
      else literal_scan fuel' p s'
  | _, _ => []
  end.

(** A regular-expression engine that knows words (a pattern of letters,
    digits and blanks matches itself) and one malformed pattern. *)
Definition sample_findall (pattern email_text : pystr)
  : pystr + list match_item :=
  if bool_decide (pattern = py "[")
  then inl (py "unterminated character set at position 0")
  else inr (MStr <$> literal_scan (length email_text) pattern email_text).

(** A pipeline that knows one organisation. *)
Definition sample_nlp : Language :=
  fun s =>
    {| ents := (fun m => {| text := m; label_ := py "ORG" |})
                 <$> literal_scan (length s) (py "Acme Bank") s |}.

Definition sample_env : Env :=
  {| spacy_load := inr sample_nlp;
     path_open := fun _ => None;
     json_load := fun _ => inl (py "Expecting value: line 1 column 1 (char 0)");
     re_findall := sample_findall;
     repr_str := fun s => py "'" ++ s ++ py "'" |}.

Definition sample_detector : PhishingDetector :=
  {| nlp := sample_nlp;
     config := PyDict [];
     suspicious_patterns :=
       [ (py "urgency", py "urgent"); (py "broken", py "[");
         (py "link", py "http") ];
     scoring_rules :=
       <[py "urgency" := 3%Z]>
         (<[py "link" := 5%Z]> (<[py "missing_organization" := 2%Z]> ∅)) |}.

Definition sample_email : pystr :=
  py "URGENT: this is urgent, verify at http://fakebank-login.com/verify".


(** ** The methods in closed form *)

(** What the loop over the patterns adds, entry by entry. *)
Definition patterns_score (E : Env) (rules : gmap pystr Z)
    (email_text : pystr) (items : list (pystr * pystr)) : Z :=
  foldr Z.add 0%Z (entry_score E rules email_text <$> items).

Definition patterns_flags (E : Env) (email_text : pystr)
    (items : list (pystr * pystr)) : list pystr :=
  concat (entry_flags E email_text <$> items).

(** The calls of the loop: one [re.findall] per entry, in order. *)
Definition patterns_events (email_text : pystr)
    (items : list (pystr * pystr)) : list event :=
  (fun entry => ReFindall (snd entry) email_text) <$> items.

(** The message of the error [__init__] ends with. *)
Definition init_failure (E : Env) : pystr :=
  match spacy_load E with
  | inl e => exc_str e
  | inr _ => py "'PhishingDetector' object has no attribute '_load_config'"
  end.

(** The verdict line for a score. *)
Definition verdict (score : Z) : pystr :=
  if (7 <=? score)%Z then likely_phishing
  else if (4 <=? score)%Z && (score <? 7)%Z then suspicious
  else safe.

(** An entry between [pre] and [post] contributes [c] to the score and the
    flags [ef] to the flags: the result of the analysis is what the loop
    has after [pre], then [c] and [ef], then what the analysis of [post]
    alone gives. *)
Definition contributes (E : Env) (d : PhishingDetector) (tr : list event)
    (email_text : pystr) (pre post : list (pystr * pystr))
    (c : Z) (ef : list pystr) : Prop :=
  exists score0 flags0 score2 flags2,
    fst (for_patterns E email_text pre (0%Z, []) (Machine d tr))
    = Return (score0, flags0)
    /\ fst (analyze_email E (PyStr email_text)
              (Machine (with_patterns d post) tr))
       = Return (score2, flags2)
    /\ fst (analyze_email E (PyStr email_text) (Machine d tr))
       = Return ((score0 + c + score2)%Z, flags0 ++ ef ++ flags2).

(** ** [main] *)



(** A JSON object whose values are all strings, as the table of patterns. *)
Fixpoint as_patterns (items : list (pystr * pyval))
  : option (list (pystr * pystr)) :=
  match items with
  | [] => Some []
  | (label, PyStr pattern) :: rest =>
      match as_patterns rest with
      | Some ps => Some ((label, pattern) :: ps)
      | None => None
      end
  | _ :: _ => None
  end.

(** A JSON object whose values are all integers, as the table of weights. *)
Fixpoint as_rules (items : list (pystr * pyval)) : option (gmap pystr Z) :=
  match items with
  | [] => Some ∅
  | (label, PyInt w) :: rest =>
      match as_rules rest with
      | Some rules => Some (<[label := w]> rules)
      | None => None
      end
  | _ :: _ => None
  end.

(** An instance that [__init__] has completed, read as a detector object:
    [None] when a pattern is not a string or a weight is not an integer,
    which the methods above are not modelled on. *)
Definition detector_of (inst : instance) : option PhishingDetector :=
  match inst !! "nlp", inst !! "config",
        inst !! "suspicious_patterns", inst !! "scoring_rules" with
  | Some (ANlp pipeline), Some (AVal cfg),
    Some (AVal (PyDict ps)), Some (AVal (PyDict rs)) =>
      match as_patterns ps, as_rules rs with
      | Some patterns, Some rules =>
          Some {| nlp := pipeline; config := cfg;
                  suspicious_patterns := patterns; scoring_rules := rules |}
      | _, _ => None
      end
  | _, _, _, _ => None
  end.

(** The two statements [main] runs on a detector:
    [score, flags = detector.analyze_email(text)] and
    [detector.print_results(score, flags)]. *)
Definition analyze_and_report (E : Env) (email_text : pyval)
  : M PhishingDetector unit :=
  acc <- analyze_email E email_text ;;
  print_results (fst acc) (snd acc).


(** ** More vocabulary *)

(** An entry whose pattern the engine refuses. *)
Definition malformed (E : Env) (email_text : pystr) (entry : pystr * pystr)
  : bool :=
  match re_findall E (snd entry) email_text with
  | inl _ => true
  | inr _ => false
  end.

(** How grave a verdict line is. *)
Definition severity (line : pystr) : nat :=
  if bool_decide (line = likely_phishing) then 2
  else if bool_decide (line = suspicious) then 1
  else 0.

(** The flag of the organisation check. *)
Definition no_organization : pystr := py "No organization detected".

(** A world with a configuration file. *)
Definition sample_config_text : pystr :=
  py "{" ++ [34%N] ++ py "scoring_rules" ++ [34%N] ++ py ": {}}".

Definition sample_config : pyval := PyDict [(py "scoring_rules", PyDict [])].

Definition config_env : Env :=
  {| spacy_load := inr sample_nlp;
     path_open :=
       fun path =>
         if bool_decide (path = py "config.yml")
         then Some sample_config_text else None;
     json_load :=
       fun content =>
         if bool_decide (content = sample_config_text)
         then inr sample_config
         else inl (py "Expecting value: line 1 column 1 (char 0)");
     re_findall := sample_findall;
     repr_str := fun s => py "'" ++ s ++ py "'" |}.

(** A detector whose text mentions the organisation the sample pipeline
    knows, and a text that triggers nothing. *)
Definition quiet_email : pystr := py "Minutes of the Acme Bank meeting".

(** ** Library calls that end outside their contract *)

(** [Env] and the detector's [nlp] give the libraries as their
    documentation does: [re.findall] returns a list or raises [re.error],
    the pipeline returns a document, a file is there or is not, [print]
    prints and an [int] has a decimal form.  A call can end otherwise: an
    [OverflowError] for a repetition count the engine cannot hold, a
    [ValueError] for a text longer than the pipeline takes, an
    [IsADirectoryError] or a [PermissionError] from [open], a
    [UnicodeDecodeError] while [json.load] reads, a [UnicodeEncodeError]
    from [print].  [Faults] says which calls do, and with what; [None] is
    a call that keeps to [Env]. *)
Record Faults := {
  (** [re.findall(pattern, text, re.IGNORECASE)] *)
  findall_fault : pystr -> pystr -> option exn;
  (** [self.nlp(text)] *)
  nlp_fault : pystr -> option exn;
  (** [Path(path).open('r', encoding='utf-8')] *)
  open_fault : pystr -> option exn;
  (** reading the opened file at a path, inside [json.load] *)
  read_fault : pystr -> option exn;
  (** [print(line)] *)
  print_fault : pystr -> option exn;
  (** the decimal form of a score in an f-string *)
  format_fault : Z -> option exn
}.

(** How each call ends. *)
Definition findall_result (F : Faults) (E : Env) (pattern email_text : pystr)
  : exn + list match_item :=
  match findall_fault F pattern email_text with
  | Some e => inl e
  | None =>
      match re_findall E pattern email_text with
      | inl msg => inl (Exc re_error msg)
      | inr matches => inr matches
      end
  end.

Definition nlp_result (F : Faults) (pipeline : Language) (email_text : pystr)
  : exn + Doc :=
  match nlp_fault F email_text with
  | Some e => inl e
  | None => inr (pipeline email_text)
  end.

Definition open_result (F : Faults) (E : Env) (path : pystr) : exn + pystr :=
  match open_fault F path with
  | Some e => inl e
  | None =>
      match path_open E path with
      | Some content => inr content
      | None =>
          inl (Exc FileNotFoundError
                 (py "[Errno 2] No such file or directory: "
                    ++ repr_str E path))
      end
  end.

Definition load_result (F : Faults) (E : Env) (path content : pystr)
  : exn + pyval :=
  match read_fault F path with
  | Some e => inl e
  | None =>
      match json_load E content with
      | inl msg => inl (Exc JSONDecodeError msg)
      | inr v => inr v
      end
  end.

Definition format_result (F : Faults) (score : Z) : exn + pystr :=
  match format_fault F score with
  | Some e => inl e
  | None => inr (py (pretty score))
  end.


(** The methods once more, statement for statement, on libraries that can
    end a call with any exception. *)
Module Raw.

Definition findall {O} (F : Faults) (E : Env) (pattern email_text : pystr)
  : M O (list match_item) :=
  emit (ReFindall pattern email_text) ;;;
  lift (findall_result F E pattern email_text).

Definition check_pattern (F : Faults) (E : Env)
    (email_text label pattern : pystr) (acc : Z * list pystr)
  : M PhishingDetector (Z * list pystr) :=
  let '(score, flags) := acc in
  try_except
    (matches <- findall F E pattern email_text ;;
     match matches with
     | _ :: _ =>
         rules <- gets scoring_rules ;;
         ret ((score + rules_get rules label)%Z,
              flags ++ [label ++ py " found: "
                          ++ join (py ", ") (str_match E <$> matches)])
     | [] => ret (score, flags)
     end)
    (fun e =>
       match exc_type e with
       | re_error =>
           Some (ret (score,
                      flags ++ [py "Invalid regex pattern for " ++ label
                                  ++ py ": " ++ exc_str e]))
       | _ => None
       end).

Fixpoint for_patterns (F : Faults) (E : Env) (email_text : pystr)
    (items : list (pystr * pystr)) (acc : Z * list pystr)
  : M PhishingDetector (Z * list pystr) :=
  match items with
  | [] => ret acc
  | (label, pattern) :: rest =>
      acc' <- check_pattern F E email_text label pattern acc ;;
      for_patterns F E email_text rest acc'
  end.

Definition check_organization (F : Faults) (email_text : pystr)
    (acc : Z * list pystr) : M PhishingDetector (Z * list pystr) :=
  let '(score, flags) := acc in
  emit (NlpCall email_text) ;;;
  pipeline <- gets nlp ;;
  doc <- lift (nlp_result F pipeline email_text) ;;
  let orgs :=
    text <$> List.filter (fun ent => bool_decide (label_ ent = py "ORG"))
               (ents doc) in
  match orgs with
  | [] =>
      rules <- gets scoring_rules ;;
      ret ((score + rules_get rules (py "missing_organization"))%Z,
           flags ++ [py "No organization detected"])
  | _ :: _ => ret (score, flags)
  end.

Definition analyze_email (F : Faults) (E : Env) (email_text : pyval)
  : M PhishingDetector (Z * list pystr) :=
  match email_text with
  | PyStr s =>
      if negb (truthy (PyStr (strip s)))
      then raise (Exc ValueError (py "Invalid or empty email text"))
      else
        items <- gets suspicious_patterns ;;
        acc <- for_patterns F E s items (0%Z, []) ;;
        check_organization F s acc
  | _ => raise (Exc ValueError (py "Invalid or empty email text"))
  end.

(** A [print] that raises has written nothing. *)
Definition py_print {O} (F : Faults) (line : pystr) : M O unit :=
  match print_fault F line with
  | Some e => raise e
  | None => emit (Stdout line)
  end.

Definition print_results (F : Faults) (score : Z) (flags : list pystr)
  : M PhishingDetector unit :=
  py_print F (py "=== PHISHING DETECTION RESULTS ===") ;;;
  shown <- lift (format_result F score) ;;
  py_print F (py "Email Analysis Score: " ++ shown) ;;;
  py_print F (py "Flags:") ;;;
  for_each (fun flag => py_print F (py "- " ++ flag))
    (match flags with [] => [py "None"] | _ :: _ => flags end) ;;;
  if (7 <=? score)%Z then py_print F likely_phishing
  else if (4 <=? score)%Z && (score <? 7)%Z then py_print F suspicious
  else py_print F safe.

Definition open_read {O} (F : Faults) (E : Env) (path : pystr) : M O pystr :=
  emit (PathOpen path) ;;; lift (open_result F E path).

Definition load_json {O} (F : Faults) (E : Env) (path content : pystr)
  : M O pyval :=
  emit (JsonLoad content) ;;; lift (load_result F E path content).

Definition _load_config (F : Faults) (E : Env) (path : pystr)
  : M instance pyval :=
  try_except
    (f <- open_read F E path ;;
     config <- load_json F E path f ;;
     if negb (truthy config)
     then raise (Exc ValueError (py "Empty or invalid config file"))
     else ret config)
    (fun e =>
       match exc_type e with
       | FileNotFoundError =>
           Some (raise (Exc FileNotFoundError
                          (py "Config file not found at " ++ path)))
       | JSONDecodeError =>
           Some (raise (Exc ValueError
                          (py "Invalid JSON format: " ++ exc_str e)))
       | _ => None
       end).

End Raw.

(** A world for the examples in which two calls end outside their
    contract: the engine cannot hold the repetition count of
    [a{4294967296}], and [configs] is a directory. *)
Definition sample_faults : Faults :=
  {| findall_fault :=
       fun pattern _ =>
         if bool_decide (pattern = py "a{4294967296}")
         then Some (Exc OverflowError (py "the repetition number is too large"))
         else None;
     nlp_fault := fun _ => None;
     open_fault :=
       fun path =>
         if bool_decide (path = py "configs")
         then Some (Exc IsADirectoryError
                      (py "[Errno 21] Is a directory: 'configs'"))
         else None;
     read_fault := fun _ => None;
     print_fault := fun _ => None;
     format_fault := fun _ => None |}.

(** The sample detector with an entry the engine cannot hold between its
    two plain ones. *)
Definition overflow_detector : PhishingDetector :=
  with_patterns sample_detector
    [ (py "urgency", py "urgent"); (py "flood", py "a{4294967296}");
      (py "link", py "http") ].

(** ** Proof automation *)

(** Runs the monad's operations in the goal, leaving the library calls and
    the data as they are. *)
Ltac run_py :=
  cbv [bind try_except ret raise emit gets modify lift self trace id fst snd
       exc_type exc_str].

(** * Theorems *)

(** ** White space *)

Lemma lstrip_blank (s : pystr) : blank s = true -> lstrip s = [].
Proof.
  induction s as [|c s IH]; simpl; [reflexivity|].
  intros H. apply andb_true_iff in H as [Hc Hs].
  rewrite Hc. exact (IH Hs).
Qed.

Lemma lstrip_nil_blank (s : pystr) : lstrip s = [] -> blank s = true.
Proof.
  induction s as [|c s IH]; simpl; [reflexivity|].
  destruct (py_isspace c); [exact IH | discriminate].
Qed.

(** What [lstrip] leaves starts with a character that is not white space. *)
Lemma lstrip_head (s : pystr) :
  match lstrip s with
  | [] => True
  | c :: _ => py_isspace c = false
  end.
Proof.
  induction s as [|c s IH]; simpl; [exact I|].
  destruct (py_isspace c) eqn:Hc; [exact IH | exact Hc].
Qed.

Lemma blank_reverse (s : pystr) : blank (reverse s) = blank s.
Proof.
  unfold blank. induction s as [|c s IH]; [reflexivity|].
  rewrite reverse_cons, forallb_app, IH. simpl.
  rewrite andb_true_r. apply andb_comm.
Qed.

Lemma rstrip_nil_blank (s : pystr) : rstrip s = [] <-> blank s = true.
Proof.
  unfold rstrip. split.
  - intros H. apply (f_equal reverse) in H.
    rewrite reverse_involutive in H. change (reverse []) with (@nil N) in H.
    apply lstrip_nil_blank in H. now rewrite blank_reverse in H.
  - intros H. rewrite lstrip_blank; [reflexivity|]. now rewrite blank_reverse.
Qed.

(** The guard of [analyze_email] on a [str]: [s.strip()] is empty exactly
    when [s] has white space only. *)
Lemma strip_nil_blank (s : pystr) : strip s = [] <-> blank s = true.
Proof.
  unfold strip. rewrite rstrip_nil_blank. split.
  - intros H. pose proof (lstrip_head s) as Hh.
    destruct (lstrip s) as [|c r] eqn:Hl.
    + now apply lstrip_nil_blank.
    + simpl in H. rewrite Hh in H. discriminate.
  - intros H. now rewrite lstrip_blank.
Qed.

Lemma guard_blank (s : pystr) :
  negb (truthy (PyStr (strip s))) = blank s.
Proof.
  destruct (blank s) eqn:Hb.
  - apply strip_nil_blank in Hb. now rewrite Hb.
  - simpl. destruct (strip s) eqn:Hs; [|reflexivity].
    apply strip_nil_blank in Hs. congruence.
Qed.

(** ** Construction *)

(** The class body binds three names, and [_load_config] is none of them. *)
Lemma class_namespace_names :
  class_namespace = ["__init__"; "analyze_email"; "print_results"].
Proof. reflexivity. Qed.

Lemma no_load_config_attribute (pipeline : Language) :
  hasattr (<["nlp" := ANlp pipeline]> ∅) "_load_config" = false.
Proof.
  unfold hasattr. apply orb_false_iff. split.
  - apply bool_decide_eq_false. rewrite lookup_insert_ne by discriminate.
    rewrite lookup_empty. intros [a Ha]. discriminate.
  - apply bool_decide_eq_false. rewrite class_namespace_names.
    rewrite !elem_of_cons, elem_of_nil. intros [H|[H|[H|[]]]]; discriminate.
Qed.

Lemma construct_run (E : Env) (config_path : pystr) (tr : list event) :
  construct E config_path tr
  = (Raise (Exc RuntimeError (py "Initialization failed: " ++ init_failure E)),
     Machine
       match spacy_load E with
       | inl _ => ∅
       | inr pipeline => <["nlp" := ANlp pipeline]> ∅
       end
       (tr ++ [SpacyLoad])).
Proof.
  unfold construct, __init__, init_failure, load_spacy, setattr,
    call_self_load_config.
  destruct (spacy_load E) as [e|pipeline]; run_py; [reflexivity|].
  rewrite no_load_config_attribute. reflexivity.
Qed.

(** C2: the nested loader is never reached.  When [__init__] evaluates
    [self._load_config] the instance holds [nlp] only and the class binds
    no such name, so the reference raises [AttributeError] and touches no
    file; for every path, construction ends with the wrapping
    [RuntimeError("Initialization failed: ...")], having called
    [spacy.load] and nothing else: no file was opened, no JSON parsed, and
    none of the loader's three [raise] statements ran. *)
Theorem loader_unreachable (E : Env) (config_path : pystr) (tr : list event) :
  (forall (pipeline : Language) (tr' : list event),
      hasattr (<["nlp" := ANlp pipeline]> ∅) "_load_config" = false
      /\ call_self_load_config E config_path
           (Machine (<["nlp" := ANlp pipeline]> ∅) tr')
         = (Raise (Exc AttributeError
                     (py "'PhishingDetector' object has no attribute '_load_config'")),
            Machine (<["nlp" := ANlp pipeline]> ∅) tr'))
  /\ fst (construct E config_path tr)
     = Raise (Exc RuntimeError (py "Initialization failed: " ++ init_failure E))
  /\ trace (snd (construct E config_path tr)) = tr ++ [SpacyLoad].
Proof.
  split; [|rewrite construct_run; split; reflexivity].
  intros pipeline tr'. split; [apply no_load_config_attribute|].
  unfold call_self_load_config. run_py.
  rewrite no_load_config_attribute. reflexivity.
Qed.

(** C1, as the specification states it, fails: with no file at
    [config.yml], construction ends with the [RuntimeError] of
    initialisation, not with a [FileNotFoundError]. *)
Lemma missing_file_is_not_a_configuration_error :
  path_open sample_env (py "config.yml") = None
  /\ fst (construct sample_env (py "config.yml") [])
     = Raise (Exc RuntimeError
                (py "Initialization failed: 'PhishingDetector' object has no attribute '_load_config'"))
  /\ ~ (exists msg,
          fst (construct sample_env (py "config.yml") [])
          = Raise (Exc FileNotFoundError msg)).
Proof.
  split; [reflexivity|]. rewrite construct_run. split; [reflexivity|].
  intros [msg H]. discriminate H.
Qed.

(** C1, amended: when the file at [config_path] is missing, construction
    fails with a [RuntimeError] whose message starts
    ["Initialization failed: "]; this is the very class, and the very
    prefix, that report a pipeline that could not be loaded, whose message
    the error then carries. *)
Theorem missing_file_initialization_error
    (E : Env) (config_path : pystr) (tr : list event) :
  path_open E config_path = None ->
  exists msg,
    fst (construct E config_path tr)
    = Raise (Exc RuntimeError (py "Initialization failed: " ++ msg))
    /\ (forall e, spacy_load E = inl e -> msg = exc_str e).
Proof.
  intros _. exists (init_failure E). rewrite construct_run.
  split; [reflexivity|]. intros e He. unfold init_failure. now rewrite He.
Qed.

Lemma missing_file_initialization_error_witness :
  path_open sample_env (py "config.yml") = None
  /\ exists msg,
       fst (construct sample_env (py "config.yml") [])
       = Raise (Exc RuntimeError (py "Initialization failed: " ++ msg))
       /\ (forall e, spacy_load sample_env = inl e -> msg = exc_str e).
Proof.
  split; [reflexivity|].
  apply (missing_file_initialization_error sample_env (py "config.yml") []).
  reflexivity.
Defined.

(** ** Running [analyze_email] *)

Lemma check_pattern_run (E : Env) (s label pattern : pystr)
    (score : Z) (flags : list pystr) (d : PhishingDetector)
    (tr : list event) :
  check_pattern E s label pattern (score, flags) (Machine d tr)
  = (Return ((score + entry_score E (scoring_rules d) s (label, pattern))%Z,
             flags ++ entry_flags E s (label, pattern)),
     Machine d (tr ++ [ReFindall pattern s])).
Proof.
  unfold check_pattern, findall, entry_score, entry_flags, triggered. run_py.
  destruct (re_findall E pattern s) as [msg|[|m ms]]; run_py.
  - rewrite Z.add_0_r. reflexivity.
  - rewrite Z.add_0_r, app_nil_r. reflexivity.
  - reflexivity.
Qed.

Lemma for_patterns_run (E : Env) (s : pystr) (d : PhishingDetector)
    (items : list (pystr * pystr)) :
  forall (score : Z) (flags : list pystr) (tr : list event),
    for_patterns E s items (score, flags) (Machine d tr)
    = (Return ((score + patterns_score E (scoring_rules d) s items)%Z,
               flags ++ patterns_flags E s items),
       Machine d (tr ++ patterns_events s items)).
Proof.
  induction items as [|[label pattern] rest IH]; intros score flags tr.
  - cbn [for_patterns]. unfold ret, patterns_score, patterns_flags,
      patterns_events. simpl.
    rewrite Z.add_0_r, !app_nil_r. reflexivity.
  - cbn [for_patterns]. unfold bind at 1. rewrite check_pattern_run, IH.
    unfold patterns_score, patterns_flags, patterns_events.
    rewrite !fmap_cons. cbn [foldr concat snd].
    rewrite Z.add_assoc, <- !app_assoc. reflexivity.
Qed.

Lemma no_orgs_iff (l : list Span) :
  text <$> List.filter (fun ent => bool_decide (label_ ent = py "ORG")) l = []
  <-> existsb (fun ent => bool_decide (label_ ent = py "ORG")) l = false.
Proof.
  induction l as [|ent l IH]; simpl; [tauto|].
  destruct (bool_decide (label_ ent = py "ORG")); simpl; [|exact IH].
  split; discriminate.
Qed.

Lemma check_organization_run (s : pystr) (score : Z) (flags : list pystr)
    (d : PhishingDetector) (tr : list event) :
  check_organization s (score, flags) (Machine d tr)
  = (Return (if org_found d s then (score, flags)
             else ((score + rules_get (scoring_rules d)
                              (py "missing_organization"))%Z,
                   flags ++ [py "No organization detected"])),
     Machine d (tr ++ [NlpCall s])).
Proof.
  unfold check_organization, org_found. run_py.
  pose proof (no_orgs_iff (ents (nlp d s))) as H.
  destruct (text <$> List.filter _ (ents (nlp d s))) as [|o os].
  - rewrite (proj1 H eq_refl). reflexivity.
  - destruct (existsb _ (ents (nlp d s))); [reflexivity|].
    destruct H as [_ H]. discriminate (H eq_refl).
Qed.

(** The run of [analyze_email] on a text that passes its guard. *)
Lemma analyze_email_run (E : Env) (s : pystr) (d : PhishingDetector)
    (tr : list event) :
  blank s = false ->
  analyze_email E (PyStr s) (Machine d tr)
  = (Return
       (let score := patterns_score E (scoring_rules d) s
                       (suspicious_patterns d) in
        let flags := patterns_flags E s (suspicious_patterns d) in
        if org_found d s then (score, flags)
        else ((score + rules_get (scoring_rules d)
                         (py "missing_organization"))%Z,
              flags ++ [py "No organization detected"])),
     Machine d (tr ++ patterns_events s (suspicious_patterns d)
                   ++ [NlpCall s])).
Proof.
  intros Hb. unfold analyze_email. rewrite guard_blank, Hb.
  unfold bind, gets. cbn [self].
  rewrite for_patterns_run, check_organization_run.
  rewrite Z.add_0_l, app_nil_l, <- app_assoc. reflexivity.
Qed.

Lemma analyze_email_rejects (E : Env) (v : pyval) (d : PhishingDetector)
    (tr : list event) :
  match v with PyStr s => blank s = true | _ => True end ->
  analyze_email E v (Machine d tr)
  = (Raise (Exc ValueError (py "Invalid or empty email text")), Machine d tr).
Proof.
  destruct v; intros H; try reflexivity.
  unfold analyze_email. rewrite guard_blank, H. reflexivity.
Qed.

(** ** Running [print_results] *)

Lemma for_each_print_run {O} (f : pystr -> pystr) (xs : list pystr) :
  forall (o : O) (tr : list event),
    for_each (fun x => py_print (f x)) xs (Machine o tr)
    = (Return tt, Machine o (tr ++ ((fun x => Stdout (f x)) <$> xs))).
Proof.
  induction xs as [|x xs IH]; intros o tr; simpl.
  - unfold ret. now rewrite app_nil_r.
  - unfold bind at 1, py_print at 1, emit. cbn [self trace].
    rewrite IH, <- app_assoc. reflexivity.
Qed.

Lemma print_results_run (score : Z) (flags : list pystr)
    (d : PhishingDetector) (tr : list event) :
  print_results score flags (Machine d tr)
  = (Return tt,
     Machine d (tr ++ report_head score flags ++ [Stdout (verdict score)])).
Proof.
  unfold print_results, report_head, verdict.
  unfold bind at 1, py_print at 1, emit. cbn [self trace].
  unfold bind at 1, py_print at 1, emit. cbn [self trace].
  unfold bind at 1, py_print at 1, emit. cbn [self trace].
  unfold bind at 1. rewrite for_each_print_run.
  destruct (7 <=? score)%Z; [|destruct ((4 <=? score)%Z && (score <? 7)%Z)];
    unfold py_print, emit; cbn [self trace];
    rewrite <- !app_assoc; reflexivity.
Qed.

(** ** The claims about [analyze_email] and [print_results] *)

Lemma patterns_score_app (E : Env) (rules : gmap pystr Z) (s : pystr)
    (pre post : list (pystr * pystr)) :
  patterns_score E rules s (pre ++ post)
  = (patterns_score E rules s pre + patterns_score E rules s post)%Z.
Proof.
  unfold patterns_score. induction pre as [|e pre IH]; [reflexivity|].
  rewrite <- app_comm_cons, !fmap_cons. cbn [foldr]. rewrite IH. lia.
Qed.

Lemma patterns_flags_app (E : Env) (s : pystr)
    (pre post : list (pystr * pystr)) :
  patterns_flags E s (pre ++ post)
  = patterns_flags E s pre ++ patterns_flags E s post.
Proof.
  unfold patterns_flags. now rewrite fmap_app, concat_app.
Qed.

Lemma contributes_entry (E : Env) (d : PhishingDetector) (tr : list event)
    (s : pystr) (pre post : list (pystr * pystr)) (entry : pystr * pystr) :
  blank s = false ->
  suspicious_patterns d = pre ++ entry :: post ->
  contributes E d tr s pre post
    (entry_score E (scoring_rules d) s entry) (entry_flags E s entry).
Proof.
  intros Hb Hd. unfold contributes.
  rewrite for_patterns_run, !analyze_email_run by exact Hb.
  rewrite Hd. cbn [fst with_patterns suspicious_patterns scoring_rules].
  change (org_found (with_patterns d post) s) with (org_found d s).
  change (pre ++ entry :: post) with (pre ++ [entry] ++ post).
  rewrite !patterns_score_app, !patterns_flags_app.
  replace (patterns_score E (scoring_rules d) s [entry])
    with (entry_score E (scoring_rules d) s entry)
    by (unfold patterns_score; simpl; lia).
  replace (patterns_flags E s [entry]) with (entry_flags E s entry)
    by (unfold patterns_flags; simpl; now rewrite app_nil_r).
  destruct (org_found d s).
  - eexists _, _, _, _. split; [reflexivity|]. split; [reflexivity|].
    rewrite Z.add_0_l, app_nil_l, Z.add_assoc. reflexivity.
  - eexists _, _, _, _. split; [reflexivity|]. split; [reflexivity|].
    rewrite Z.add_0_l, app_nil_l, <- !app_assoc. f_equal. f_equal. lia.
Qed.



(** C7: an entry whose pattern is not a regular expression does not make
    the analysis fail.  Its turn of the loop catches the [re.error], leaves
    the score as it is and appends the one flag that carries the error's
    message; the analysis returns, having gone on to call [re.findall] for
    every later entry and then the pipeline. *)
Theorem malformed_entry_contribution
    (E : Env) (d : PhishingDetector) (tr : list event) (s : pystr)
    (pre post : list (pystr * pystr)) (label pattern msg : pystr) :
  blank s = false ->
  suspicious_patterns d = pre ++ (label, pattern) :: post ->
  re_findall E pattern s = inl msg ->
  (forall score flags tr',
      check_pattern E s label pattern (score, flags) (Machine d tr')
      = (Return (score,
                 flags ++ [py "Invalid regex pattern for " ++ label
                             ++ py ": " ++ msg]),
         Machine d (tr' ++ [ReFindall pattern s])))
  /\ contributes E d tr s pre post 0%Z
       [py "Invalid regex pattern for " ++ label ++ py ": " ++ msg]
  /\ trace (snd (analyze_email E (PyStr s) (Machine d tr)))
     = tr ++ ((fun entry => ReFindall (snd entry) s) <$> pre)
          ++ [ReFindall pattern s]
          ++ ((fun entry => ReFindall (snd entry) s) <$> post)
          ++ [NlpCall s].
Proof.
  intros Hb Hd Hm. split; [|split].
  - intros score flags tr'. rewrite check_pattern_run.
    unfold entry_score, entry_flags, triggered. cbn [fst snd]. rewrite Hm.
    now rewrite Z.add_0_r.
  - pose proof (contributes_entry E d tr s pre post (label, pattern) Hb Hd)
      as H.
    unfold entry_score, entry_flags, triggered in H. cbn [fst snd] in H.
    rewrite Hm in H. exact H.
  - rewrite analyze_email_run by exact Hb. cbn [snd trace]. rewrite Hd.
    unfold patterns_events. rewrite fmap_app, fmap_cons, <- !app_assoc.
    reflexivity.
Qed.

Lemma malformed_entry_contribution_witness :
  blank sample_email = false
  /\ suspicious_patterns sample_detector
     = [(py "urgency", py "urgent")] ++ (py "broken", py "[")
         :: [(py "link", py "http")]
  /\ re_findall sample_env (py "[") sample_email
     = inl (py "unterminated character set at position 0")
  /\ contributes sample_env sample_detector [] sample_email
       [(py "urgency", py "urgent")] [(py "link", py "http")] 0%Z
       [py "Invalid regex pattern for broken: unterminated character set at position 0"].
Proof.
  split; [reflexivity|]. split; [reflexivity|]. split; [reflexivity|].
  apply (malformed_entry_contribution sample_env sample_detector []
           sample_email [(py "urgency", py "urgent")]
           [(py "link", py "http")] (py "broken") (py "[")
           (py "unterminated character set at position 0"));
    reflexivity.
Defined.

Lemma org_found_iff (d : PhishingDetector) (s : pystr) :
  org_found d s = true
  <-> exists ent, ent ∈ ents (nlp d s) /\ label_ ent = py "ORG".
Proof.
  unfold org_found. rewrite existsb_exists. split.
  - intros (ent & Hin & Hl). exists ent. split.
    + now apply list_elem_of_In.
    + now apply bool_decide_eq_true in Hl.
  - intros (ent & Hin & Hl). exists ent. split.
    + now apply list_elem_of_In.
    + now apply bool_decide_eq_true.
Qed.

(** C4: on a text that passes the guard, the pipeline is called once, after
    the loop over the patterns.  When none of the entities it returns is
    labelled [ORG], the weight of [missing_organization] (0 when
    [scoring_rules] has none) is added to the loop's score and one flag is
    appended to the loop's flags; when one is, the loop's score and flags
    are returned as they are. *)
Theorem organization_check
    (E : Env) (d : PhishingDetector) (tr : list event) (s : pystr) :
  blank s = false ->
  exists score flags m,
    for_patterns E s (suspicious_patterns d) (0%Z, []) (Machine d tr)
    = (Return (score, flags), m)
    /\ trace (snd (analyze_email E (PyStr s) (Machine d tr)))
       = trace m ++ [NlpCall s]
    /\ ((forall ent, ent ∈ ents (nlp d s) -> label_ ent <> py "ORG") ->
        fst (analyze_email E (PyStr s) (Machine d tr))
        = Return ((score
                   + default 0 (scoring_rules d !! py "missing_organization"))%Z,
                  flags ++ [py "No organization detected"]))
    /\ ((exists ent, ent ∈ ents (nlp d s) /\ label_ ent = py "ORG") ->
        fst (analyze_email E (PyStr s) (Machine d tr))
        = Return (score, flags)).
Proof.
  intros Hb. rewrite for_patterns_run, analyze_email_run by exact Hb.
  eexists _, _, _. split; [reflexivity|]. cbn [fst snd trace].
  rewrite Z.add_0_l, app_nil_l, app_assoc.
  split; [reflexivity|]. split.
  - intros Hno. destruct (org_found d s) eqn:Ho; [|reflexivity].
    apply org_found_iff in Ho as (ent & Hin & Hl). now destruct (Hno ent Hin).
  - intros Hex. apply org_found_iff in Hex. now rewrite Hex.
Qed.

Lemma organization_check_witness :
  blank sample_email = false
  /\ exists score flags m,
       for_patterns sample_env sample_email
         (suspicious_patterns sample_detector) (0%Z, [])
         (Machine sample_detector [])
       = (Return (score, flags), m)
       /\ trace (snd (analyze_email sample_env (PyStr sample_email)
                        (Machine sample_detector [])))
          = trace m ++ [NlpCall sample_email]
       /\ ((forall ent, ent ∈ ents (nlp sample_detector sample_email) ->
                        label_ ent <> py "ORG") ->
           fst (analyze_email sample_env (PyStr sample_email)
                  (Machine sample_detector []))
           = Return ((score
                      + default 0 (scoring_rules sample_detector
                                     !! py "missing_organization"))%Z,
                     flags ++ [py "No organization detected"]))
       /\ ((exists ent, ent ∈ ents (nlp sample_detector sample_email)
                        /\ label_ ent = py "ORG") ->
           fst (analyze_email sample_env (PyStr sample_email)
                  (Machine sample_detector []))
           = Return (score, flags)).
Proof.
  split; [reflexivity|].
  apply (organization_check sample_env sample_detector [] sample_email).
  reflexivity.
Defined.

Lemma patterns_score_triggered (E : Env) (rules : gmap pystr Z) (s : pystr)
    (items : list (pystr * pystr)) :
  patterns_score E rules s items
  = foldr Z.add 0%Z
      ((fun entry => rules_get rules (fst entry))
         <$> List.filter (triggered E s) items).
Proof.
  unfold patterns_score. induction items as [|e items IH]; [reflexivity|].
  rewrite fmap_cons. cbn [foldr List.filter]. rewrite IH.
  unfold entry_score. destruct (triggered E s e); [reflexivity|].
  apply Z.add_0_l.
Qed.




(** C6: the empty string, and every object that is not a [str], is
    rejected with [ValueError("Invalid or empty email text")], and the
    machine is left as it was: the trace gains no event, so neither
    [re.findall] nor the pipeline was called. *)
Theorem invalid_input_rejected
    (E : Env) (d : PhishingDetector) (tr : list event) (email_text : pyval) :
  email_text = PyStr [] \/ isinstance_str email_text = false ->
  analyze_email E email_text (Machine d tr)
  = (Raise (Exc ValueError (py "Invalid or empty email text")), Machine d tr).
Proof.
  intros [->|H].
  - now apply analyze_email_rejects.
  - apply analyze_email_rejects. now destruct email_text.
Qed.

Lemma invalid_input_rejected_witness :
  (PyStr [] = PyStr [] \/ isinstance_str (PyStr []) = false)
  /\ analyze_email sample_env (PyStr []) (Machine sample_detector [])
     = (Raise (Exc ValueError (py "Invalid or empty email text")),
        Machine sample_detector [])
  /\ (PyInt 42 = PyStr [] \/ isinstance_str (PyInt 42) = false)
  /\ analyze_email sample_env (PyInt 42) (Machine sample_detector [])
     = (Raise (Exc ValueError (py "Invalid or empty email text")),
        Machine sample_detector []).
Proof.
  split; [left; reflexivity|]. split.
  - apply (invalid_input_rejected sample_env sample_detector [] (PyStr [])).
    left. reflexivity.
  - split; [right; reflexivity|].
    apply (invalid_input_rejected sample_env sample_detector [] (PyInt 42)).
    right. reflexivity.
Defined.

(** C10: a string that is not empty and has white space only is rejected
    exactly as the empty string is. *)
Theorem whitespace_only_rejected
    (E : Env) (d : PhishingDetector) (tr : list event) (s : pystr) :
  s <> [] ->
  forallb py_isspace s = true ->
  analyze_email E (PyStr s) (Machine d tr)
  = (Raise (Exc ValueError (py "Invalid or empty email text")), Machine d tr)
  /\ analyze_email E (PyStr s) (Machine d tr)
     = analyze_email E (PyStr []) (Machine d tr).
Proof.
  intros _ Hws.
  rewrite (analyze_email_rejects E (PyStr s)) by exact Hws.
  rewrite (analyze_email_rejects E (PyStr [])) by reflexivity.
  split; reflexivity.
Qed.

Lemma whitespace_only_rejected_witness :
  [32%N; 9%N; 10%N; 0x3000%N] <> []
  /\ forallb py_isspace [32%N; 9%N; 10%N; 0x3000%N] = true
  /\ analyze_email sample_env (PyStr [32%N; 9%N; 10%N; 0x3000%N])
       (Machine sample_detector [])
     = (Raise (Exc ValueError (py "Invalid or empty email text")),
        Machine sample_detector [])
  /\ analyze_email sample_env (PyStr [32%N; 9%N; 10%N; 0x3000%N])
       (Machine sample_detector [])
     = analyze_email sample_env (PyStr []) (Machine sample_detector []).
Proof.
  split; [discriminate|]. split; [reflexivity|].
  apply (whitespace_only_rejected sample_env sample_detector []
           [32%N; 9%N; 10%N; 0x3000%N]); [discriminate | reflexivity].
Defined.

(** C9: [analyze_email], on any argument, and [print_results], on any score
    and flags, leave the detector object as they found it: its pipeline,
    its configuration, its patterns and its scoring rules. *)
Theorem detector_unchanged
    (E : Env) (d : PhishingDetector) (tr : list event) (email_text : pyval)
    (score : Z) (flags : list pystr) :
  self (snd (analyze_email E email_text (Machine d tr))) = d
  /\ self (snd (print_results score flags (Machine d tr))) = d.
Proof.
  split; [|now rewrite print_results_run].
  destruct email_text as [| | | |s| | |];
    try (rewrite analyze_email_rejects by exact I; reflexivity).
  destruct (blank s) eqn:Hb.
  - rewrite analyze_email_rejects by exact Hb. reflexivity.
  - rewrite analyze_email_run by exact Hb. reflexivity.
Qed.

Lemma verdicts_distinct :
  likely_phishing <> suspicious /\ likely_phishing <> safe
  /\ suspicious <> safe.
Proof. repeat split; discriminate. Qed.

(** C5: [print_results] writes the heading, the score, the flags and then
    one verdict line, which is the phishing line exactly when the score is
    at least 7, the suspicious line exactly when it is at least 4 and
    below 7, and the safe line exactly when it is below 4; so 7 is likely
    phishing, 4 is suspicious and 3 is safe. *)
Theorem report_verdict
    (score : Z) (flags : list pystr) (d : PhishingDetector)
    (tr : list event) :
  (exists v,
      print_results score flags (Machine d tr)
      = (Return tt, Machine d (tr ++ report_head score flags ++ [Stdout v]))
      /\ (v = likely_phishing <-> (7 <= score)%Z)
      /\ (v = suspicious <-> (4 <= score < 7)%Z)
      /\ (v = safe <-> (score < 4)%Z))
  /\ last (trace (snd (print_results 7 flags (Machine d tr))))
     = Some (Stdout likely_phishing)
  /\ last (trace (snd (print_results 4 flags (Machine d tr))))
     = Some (Stdout suspicious)
  /\ last (trace (snd (print_results 3 flags (Machine d tr))))
     = Some (Stdout safe).
Proof.
  destruct verdicts_distinct as (Hls & Hlf & Hsf).
  split.
  - exists (verdict score). split; [apply print_results_run|].
    unfold verdict.
    destruct (Z.leb_spec 7 score) as [H7|H7];
      [|destruct (Z.leb_spec 4 score) as [H4|H4];
        destruct (Z.ltb_spec score 7) as [H7'|H7']; cbn [andb]];
      repeat match goal with
        | |- _ /\ _ => split
        | |- _ <-> _ => split
        end;
      intros; try lia; try reflexivity; congruence.
  - rewrite !print_results_run. cbn [snd trace].
    rewrite !app_assoc, !last_snoc. repeat split.
Qed.

(** * Further properties *)

(** ** The loader and the constructor *)

Lemma load_config_run
    (E : Env) (path : pystr) (inst : instance) (tr : list event) :
  _load_config E path (Machine inst tr)
  = match path_open E path with
    | None =>
        (Raise (Exc FileNotFoundError (py "Config file not found at " ++ path)),
         Machine inst (tr ++ [PathOpen path]))
    | Some content =>
        (match json_load E content with
         | inl msg => Raise (Exc ValueError (py "Invalid JSON format: " ++ msg))
         | inr v =>
             if truthy v then Return v
             else Raise (Exc ValueError (py "Empty or invalid config file"))
         end,
         Machine inst (tr ++ [PathOpen path; JsonLoad content]))
    end.
Proof.
  unfold _load_config, open_read, load_json. run_py.
  destruct (path_open E path) as [content|]; [|reflexivity].
  rewrite <- app_assoc.
  destruct (json_load E content) as [msg|v]; [reflexivity|].
  destruct (truthy v); reflexivity.
Qed.

(** X2: a configuration that [_load_config] returns is never empty: it is
    truthy, it is what [json.load] made of the content of the file at the
    path, and the file was opened once and parsed once. *)
Theorem load_config_returns_nonempty
    (E : Env) (path : pystr) (inst : instance) (tr : list event)
    (v : pyval) (m' : machine instance) :
  _load_config E path (Machine inst tr) = (Return v, m') ->
  truthy v = true
  /\ exists content,
       path_open E path = Some content
       /\ json_load E content = inr v
       /\ m' = Machine inst (tr ++ [PathOpen path; JsonLoad content]).
Proof.
  rewrite load_config_run.
  destruct (path_open E path) as [content|]; [|discriminate].
  destruct (json_load E content) as [msg|w] eqn:Hj; [discriminate|].
  destruct (truthy w) eqn:Ht; [|discriminate].
  intros H. injection H as <- <-. split; [exact Ht|].
  exists content. split; [reflexivity|]. split; [exact Hj | reflexivity].
Qed.

Lemma load_config_returns_nonempty_witness :
  _load_config config_env (py "config.yml") (Machine ∅ [])
  = (Return sample_config,
     Machine ∅ [PathOpen (py "config.yml"); JsonLoad sample_config_text])
  /\ truthy sample_config = true
  /\ exists content,
       path_open config_env (py "config.yml") = Some content
       /\ json_load config_env content = inr sample_config
       /\ Machine (∅ : instance)
            [PathOpen (py "config.yml"); JsonLoad sample_config_text]
          = Machine ∅ ([] ++ [PathOpen (py "config.yml"); JsonLoad content]).
Proof.
  split; [reflexivity|].
  apply (load_config_returns_nonempty config_env (py "config.yml") ∅ []).
  reflexivity.
Defined.

(** X4: the constructor does not look at its argument or at any file: two
    constructions in worlds where [spacy.load] behaves alike end alike,
    whatever the two paths, the two file systems and the two JSON
    parsers. *)
Theorem construct_ignores_config
    (E E' : Env) (config_path config_path' : pystr) (tr : list event) :
  spacy_load E = spacy_load E' ->
  construct E config_path tr = construct E' config_path' tr.
Proof.
  intros H. rewrite !construct_run. unfold init_failure. now rewrite H.
Qed.

Lemma construct_ignores_config_witness :
  spacy_load sample_env = spacy_load config_env
  /\ construct sample_env (py "missing.json") []
     = construct config_env (py "config.yml") [].
Proof.
  split; [reflexivity|].
  apply (construct_ignores_config sample_env config_env
           (py "missing.json") (py "config.yml") []).
  reflexivity.
Defined.

(** X5: the object a failed construction leaves behind has no [config],
    no [suspicious_patterns] and no [scoring_rules]; it has [nlp] exactly
    when [spacy.load] returned.  It is not a detector the other methods
    could run on. *)
Theorem construct_assigns_no_configuration
    (E : Env) (config_path : pystr) (tr : list event) :
  exists inst : instance,
    snd (construct E config_path tr) = Machine inst (tr ++ [SpacyLoad])
    /\ inst !! "config" = None
    /\ inst !! "suspicious_patterns" = None
    /\ inst !! "scoring_rules" = None
    /\ (is_Some (inst !! "nlp") <-> exists pipeline, spacy_load E = inr pipeline)
    /\ detector_of inst = None.
Proof.
  rewrite construct_run. eexists. split; [reflexivity|].
  destruct (spacy_load E) as [e|pipeline].
  - repeat split; try reflexivity.
    + intros [a Ha]. rewrite lookup_empty in Ha. discriminate.
    + intros [p Hp]. discriminate.
  - repeat split; try reflexivity.
    + intros _. now exists pipeline.
    + intros _. now exists (ANlp pipeline).
Qed.

(** ** [main] *)



(** ** [analyze_email]: when it fails, what it calls *)

(** X8: the text handed to the libraries is the argument as it came, white
    space at its ends included.  A valid text costs one [re.findall] per
    entry, in the order of the table, and then one call of the pipeline;
    a rejected argument costs no call at all. *)
Theorem analyze_email_calls
    (E : Env) (d : PhishingDetector) (tr : list event) (v : pyval) :
  trace (snd (analyze_email E v (Machine d tr)))
  = tr ++ match v with
          | PyStr s =>
              if forallb py_isspace s then []
              else ((fun entry => ReFindall (snd entry) s)
                      <$> suspicious_patterns d) ++ [NlpCall s]
          | _ => []
          end.
Proof.
  destruct v as [| | | |s| | |];
    try (rewrite analyze_email_rejects by exact I; cbn [snd trace];
         now rewrite app_nil_r).
  change (forallb py_isspace s) with (blank s). destruct (blank s) eqn:Hb.
  - rewrite analyze_email_rejects by exact Hb. cbn [snd trace].
    now rewrite app_nil_r.
  - rewrite analyze_email_run by exact Hb. reflexivity.
Qed.

(** ** [analyze_email]: the flags *)

Lemma patterns_flags_length_exact (E : Env) (s : pystr)
    (items : list (pystr * pystr)) :
  length (patterns_flags E s items)
  = length (List.filter (triggered E s) items)
    + length (List.filter (malformed E s) items).
Proof.
  unfold patterns_flags. induction items as [|e items IH]; [reflexivity|].
  rewrite fmap_cons. cbn [concat List.filter]. rewrite length_app, IH.
  unfold triggered at 2, malformed at 2, entry_flags at 1.
  destruct (re_findall E (snd e) s) as [msg|[|m ms]]; cbn [length]; lia.
Qed.

(** X9: the number of flags, exactly: one for every entry whose pattern
    matched, one for every entry whose pattern was refused, and one more
    when no [ORG] entity was found. *)
Theorem flags_count
    (E : Env) (d : PhishingDetector) (tr : list event) (s : pystr) :
  blank s = false ->
  exists score flags m,
    analyze_email E (PyStr s) (Machine d tr) = (Return (score, flags), m)
    /\ length flags
       = length (List.filter (triggered E s) (suspicious_patterns d))
         + length (List.filter (malformed E s) (suspicious_patterns d))
         + (if org_found d s then 0 else 1).
Proof.
  intros Hb. rewrite analyze_email_run by exact Hb.
  pose proof (patterns_flags_length_exact E s (suspicious_patterns d)) as Hl.
  destruct (org_found d s); eexists _, _, _; (split; [reflexivity|]).
  - lia.
  - rewrite length_app. cbn [length]. lia.
Qed.

Lemma flags_count_witness :
  blank sample_email = false
  /\ exists score flags m,
       analyze_email sample_env (PyStr sample_email)
         (Machine sample_detector [])
       = (Return (score, flags), m)
       /\ length flags
          = length (List.filter (triggered sample_env sample_email)
                      (suspicious_patterns sample_detector))
            + length (List.filter (malformed sample_env sample_email)
                        (suspicious_patterns sample_detector))
            + (if org_found sample_detector sample_email then 0 else 1).
Proof.
  split; [reflexivity|].
  apply (flags_count sample_env sample_detector [] sample_email).
  reflexivity.
Defined.

Lemma app_eq_drop {A} (l x t : list A) :
  l ++ x = t -> x = drop (length l) t /\ length l <= length t.
Proof.
  intros <-. rewrite drop_app_length, length_app. split; [reflexivity | lia].
Qed.

(** No flag of a pattern reads ["No organization detected"], whatever the
    label and the matches: that text has no [" found: "] in it and does
    not start like the flag of a refused pattern. *)
Lemma found_flag_not_no_organization
    (E : Env) (label : pystr) (matches : list match_item) :
  found_flag E label matches <> no_organization.
Proof.
  unfold found_flag. intros H. apply app_eq_drop in H as [H Hn].
  apply (f_equal (take 8)) in H.
  rewrite take_app_length' in H by reflexivity.
  assert (Hall : forallb
                   (fun n => negb (bool_decide
                                     (py " found: "
                                      = take 8 (drop n no_organization))))
                   (seq 0 25) = true) by (vm_compute; reflexivity).
  rewrite forallb_forall in Hall.
  specialize (Hall (length label)).
  rewrite H in Hall. rewrite bool_decide_eq_true_2 in Hall by reflexivity.
  assert (Hin : In (length label) (seq 0 25)).
  { apply in_seq. change (length no_organization) with 24 in Hn. lia. }
  specialize (Hall Hin). discriminate.
Qed.

Lemma invalid_flag_not_no_organization (label msg : pystr) :
  invalid_flag label msg <> no_organization.
Proof.
  unfold invalid_flag. intros H. apply (f_equal head) in H.
  vm_compute in H. discriminate.
Qed.

Lemma patterns_flags_no_organization (E : Env) (s : pystr)
    (items : list (pystr * pystr)) :
  no_organization ∉ patterns_flags E s items.
Proof.
  unfold patterns_flags. induction items as [|e items IH].
  - apply not_elem_of_nil.
  - rewrite fmap_cons. cbn [concat]. rewrite elem_of_app. intros [H|H].
    + unfold entry_flags in H.
      destruct (re_findall E (snd e) s) as [msg|[|m ms]].
      * apply list_elem_of_singleton in H.
        symmetry in H. now apply invalid_flag_not_no_organization in H.
      * now apply elem_of_nil in H.
      * apply list_elem_of_singleton in H.
        symmetry in H. now apply found_flag_not_no_organization in H.
    + exact (IH H).
Qed.

(** X10: the flag ["No organization detected"] is among the flags exactly
    when the pipeline found no [ORG] entity, for every table of labels and
    patterns; it is then the last flag. *)
Theorem no_organization_flag
    (E : Env) (d : PhishingDetector) (tr : list event) (s : pystr) :
  blank s = false ->
  exists score flags,
    fst (analyze_email E (PyStr s) (Machine d tr)) = Return (score, flags)
    /\ (py "No organization detected" ∈ flags <-> org_found d s = false)
    /\ (org_found d s = false ->
        last flags = Some (py "No organization detected")).
Proof.
  intros Hb. rewrite analyze_email_run by exact Hb. cbn [fst].
  pose proof (patterns_flags_no_organization E s (suspicious_patterns d))
    as Hno.
  change (py "No organization detected") with no_organization in *.
  destruct (org_found d s); eexists _, _; (split; [reflexivity|]).
  - split; [|discriminate]. split; [intros H; now destruct Hno | discriminate].
  - split; [|intros _; apply last_snoc].
    split; [reflexivity|]. intros _. apply elem_of_app. right.
    now apply list_elem_of_singleton.
Qed.

Lemma no_organization_flag_witness :
  blank sample_email = false
  /\ exists score flags,
       fst (analyze_email sample_env (PyStr sample_email)
              (Machine sample_detector []))
       = Return (score, flags)
       /\ (py "No organization detected" ∈ flags
           <-> org_found sample_detector sample_email = false)
       /\ (org_found sample_detector sample_email = false ->
           last flags = Some (py "No organization detected")).
Proof.
  split; [reflexivity|].
  apply (no_organization_flag sample_env sample_detector [] sample_email).
  reflexivity.
Defined.

(** ** [analyze_email]: the score *)

Lemma patterns_score_perm (E : Env) (rules : gmap pystr Z) (s : pystr)
    (items items' : list (pystr * pystr)) :
  items ≡ₚ items' ->
  patterns_score E rules s items = patterns_score E rules s items'.
Proof.
  unfold patterns_score.
  induction 1 as [|x l l' _ IH|x y l|l l' l'' _ IH1 _ IH2].
  - reflexivity.
  - rewrite !fmap_cons. cbn [foldr]. now rewrite IH.
  - rewrite !fmap_cons. cbn [foldr]. lia.
  - now rewrite IH1.
Qed.

Lemma patterns_flags_perm (E : Env) (s : pystr)
    (items items' : list (pystr * pystr)) :
  items ≡ₚ items' -> patterns_flags E s items ≡ₚ patterns_flags E s items'.
Proof.
  unfold patterns_flags.
  induction 1 as [|x l l' _ IH|x y l|l l' l'' _ IH1 _ IH2].
  - reflexivity.
  - rewrite !fmap_cons. cbn [concat]. now apply Permutation_app_head.
  - rewrite !fmap_cons. cbn [concat]. apply Permutation_app_swap_app.
  - now rewrite IH1.
Qed.

(** X11: the order of the entries in [suspicious_patterns] does not change
    the score, and it changes the flags by their order only. *)
Theorem score_independent_of_order
    (E : Env) (d : PhishingDetector) (tr : list event) (s : pystr)
    (items' : list (pystr * pystr)) :
  blank s = false ->
  suspicious_patterns d ≡ₚ items' ->
  exists score flags flags',
    fst (analyze_email E (PyStr s) (Machine d tr)) = Return (score, flags)
    /\ fst (analyze_email E (PyStr s) (Machine (with_patterns d items') tr))
       = Return (score, flags')
    /\ flags ≡ₚ flags'.
Proof.
  intros Hb Hp. rewrite !analyze_email_run by exact Hb.
  cbn [fst with_patterns suspicious_patterns scoring_rules].
  change (org_found (with_patterns d items') s) with (org_found d s).
  rewrite <- (patterns_score_perm E (scoring_rules d) s _ _ Hp).
  pose proof (patterns_flags_perm E s _ _ Hp) as Hf.
  destruct (org_found d s); eexists _, _, _;
    (split; [reflexivity|]); (split; [reflexivity|]).
  - exact Hf.
  - now apply Permutation_app_tail.
Qed.

Lemma score_independent_of_order_witness :
  blank sample_email = false
  /\ suspicious_patterns sample_detector
     ≡ₚ [ (py "link", py "http"); (py "urgency", py "urgent");
          (py "broken", py "[") ]
  /\ exists score flags flags',
       fst (analyze_email sample_env (PyStr sample_email)
              (Machine sample_detector []))
       = Return (score, flags)
       /\ fst (analyze_email sample_env (PyStr sample_email)
                 (Machine
                    (with_patterns sample_detector
                       [ (py "link", py "http"); (py "urgency", py "urgent");
                         (py "broken", py "[") ])
                    []))
          = Return (score, flags')
       /\ flags ≡ₚ flags'.
Proof.
  assert (Hp : suspicious_patterns sample_detector
               ≡ₚ [ (py "link", py "http"); (py "urgency", py "urgent");
                    (py "broken", py "[") ]).
  { change (suspicious_patterns sample_detector)
      with ([ (py "urgency", py "urgent"); (py "broken", py "[") ]
              ++ [ (py "link", py "http") ]).
    apply (Permutation_app_comm
             [ (py "urgency", py "urgent"); (py "broken", py "[") ]
             [ (py "link", py "http") ]). }
  split; [reflexivity|]. split; [exact Hp|].
  apply (score_independent_of_order sample_env sample_detector []
           sample_email); [reflexivity | exact Hp].
Defined.

Lemma rules_get_nonneg (rules : gmap pystr Z) (label : pystr) :
  map_Forall (fun _ w => (0 <= w)%Z) rules -> (0 <= rules_get rules label)%Z.
Proof.
  intros H. unfold rules_get.
  destruct (rules !! label) as [w|] eqn:Hw; cbn [default]; [|lia].
  exact (H label w Hw).
Qed.

Lemma patterns_score_nonneg (E : Env) (rules : gmap pystr Z) (s : pystr)
    (items : list (pystr * pystr)) :
  map_Forall (fun _ w => (0 <= w)%Z) rules ->
  (0 <= patterns_score E rules s items)%Z
  /\ forall entry,
       entry ∈ items -> triggered E s entry = true ->
       (rules_get rules (fst entry) <= patterns_score E rules s items)%Z.
Proof.
  intros H. unfold patterns_score.
  induction items as [|e items [IH0 IH]].
  - split; [cbn; lia|]. intros entry Hin. now apply elem_of_nil in Hin.
  - rewrite fmap_cons. cbn [foldr].
    assert (He : (0 <= entry_score E rules s e)%Z).
    { unfold entry_score. destruct (triggered E s e); [|lia].
      now apply rules_get_nonneg. }
    split; [lia|]. intros entry Hin Ht.
    apply elem_of_cons in Hin as [->|Hin].
    + unfold entry_score at 1. rewrite Ht. lia.
    + specialize (IH entry Hin Ht). lia.
Qed.

Lemma found_flag_reported (E : Env) (s : pystr)
    (items : list (pystr * pystr)) (label pattern : pystr)
    (matches : list match_item) :
  (label, pattern) ∈ items ->
  re_findall E pattern s = inr matches ->
  matches <> [] ->
  found_flag E label matches ∈ patterns_flags E s items.
Proof.
  intros Hin Hf Hne. unfold patterns_flags.
  induction items as [|e items IH]; [now apply elem_of_nil in Hin|].
  rewrite fmap_cons. cbn [concat]. apply elem_of_app.
  apply elem_of_cons in Hin as [<-|Hin]; [left | right; exact (IH Hin)].
  unfold entry_flags. cbn [fst snd]. rewrite Hf.
  destruct matches; [congruence|]. now apply list_elem_of_singleton.
Qed.

(** X12: with weights that are all non-negative the score is non-negative,
    and it is at least the weight of every entry the text triggers, whose
    flag is then among the flags. *)
Theorem score_lower_bounds
    (E : Env) (d : PhishingDetector) (tr : list event) (s : pystr) :
  map_Forall (fun _ w => (0 <= w)%Z) (scoring_rules d) ->
  blank s = false ->
  exists score flags,
    fst (analyze_email E (PyStr s) (Machine d tr)) = Return (score, flags)
    /\ (0 <= score)%Z
    /\ forall label pattern matches,
         (label, pattern) ∈ suspicious_patterns d ->
         re_findall E pattern s = inr matches ->
         matches <> [] ->
         (default 0 (scoring_rules d !! label) <= score)%Z
         /\ label ++ py " found: " ++ join (py ", ") (str_match E <$> matches)
            ∈ flags.
Proof.
  intros Hw Hb. rewrite analyze_email_run by exact Hb. cbn [fst].
  destruct (patterns_score_nonneg E (scoring_rules d) s
              (suspicious_patterns d) Hw) as [H0 Hge].
  pose proof (rules_get_nonneg (scoring_rules d)
                (py "missing_organization") Hw) as Hm.
  assert (Hflag : forall label pattern matches,
            (label, pattern) ∈ suspicious_patterns d ->
            re_findall E pattern s = inr matches -> matches <> [] ->
            found_flag E label matches
            ∈ patterns_flags E s (suspicious_patterns d))
    by (intros label pattern matches; apply found_flag_reported).
  assert (Htrig : forall label pattern matches,
            re_findall E pattern s = inr matches -> matches <> [] ->
            triggered E s (label, pattern) = true).
  { intros label pattern matches Hf Hne. unfold triggered. cbn [snd].
    rewrite Hf. destruct matches; [congruence | reflexivity]. }
  destruct (org_found d s); eexists _, _; (split; [reflexivity|]);
    (split; [lia|]); intros label pattern matches Hin Hf Hne;
    specialize (Hge (label, pattern) Hin (Htrig _ _ _ Hf Hne));
    specialize (Hflag _ _ _ Hin Hf Hne);
    unfold rules_get in Hge; cbn [fst] in Hge; unfold found_flag in Hflag.
  - split; [exact Hge | exact Hflag].
  - split; [|apply elem_of_app; now left].
    eapply Z.le_trans; [exact Hge|]. lia.
Qed.

Lemma score_lower_bounds_witness :
  map_Forall (fun _ w => (0 <= w)%Z) (scoring_rules sample_detector)
  /\ blank sample_email = false
  /\ exists score flags,
       fst (analyze_email sample_env (PyStr sample_email)
              (Machine sample_detector []))
       = Return (score, flags)
       /\ (0 <= score)%Z
       /\ forall label pattern matches,
            (label, pattern) ∈ suspicious_patterns sample_detector ->
            re_findall sample_env pattern sample_email = inr matches ->
            matches <> [] ->
            (default 0 (scoring_rules sample_detector !! label) <= score)%Z
            /\ label ++ py " found: "
                 ++ join (py ", ") (str_match sample_env <$> matches)
               ∈ flags.
Proof.
  assert (Hw : map_Forall (fun _ w => (0 <= w)%Z)
                 (scoring_rules sample_detector)).
  { unfold sample_detector. cbn [scoring_rules].
    repeat (apply map_Forall_insert_2; [lia|]). apply map_Forall_empty. }
  split; [exact Hw|]. split; [reflexivity|].
  apply (score_lower_bounds sample_env sample_detector [] sample_email);
    [exact Hw | reflexivity].
Defined.

Lemma patterns_score_no_rules (E : Env) (s : pystr)
    (items : list (pystr * pystr)) :
  patterns_score E ∅ s items = 0%Z.
Proof.
  unfold patterns_score. induction items as [|e items IH]; [reflexivity|].
  rewrite fmap_cons. cbn [foldr]. rewrite IH. unfold entry_score, rules_get.
  rewrite lookup_empty. destruct (triggered E s e); reflexivity.
Qed.

(** X13: the flags do not depend on [scoring_rules]: two detectors with
    the same pipeline and the same patterns report the same flags for a
    text, whatever their weights; and with no weight configured at all
    the score is 0 while the flags are still reported. *)
Theorem flags_independent_of_weights
    (E : Env) (d d' : PhishingDetector) (tr : list event) (s : pystr) :
  blank s = false ->
  nlp d = nlp d' ->
  suspicious_patterns d = suspicious_patterns d' ->
  exists score score' flags,
    fst (analyze_email E (PyStr s) (Machine d tr)) = Return (score, flags)
    /\ fst (analyze_email E (PyStr s) (Machine d' tr))
       = Return (score', flags)
    /\ (scoring_rules d' = ∅ -> score' = 0%Z).
Proof.
  intros Hb Hn Hp. rewrite !analyze_email_run by exact Hb. cbn [fst].
  unfold org_found. rewrite <- Hn, <- Hp.
  destruct (existsb _ (ents (nlp d s))); eexists _, _, _;
    (split; [reflexivity|]); (split; [reflexivity|]);
    intros ->; rewrite patterns_score_no_rules; [reflexivity|].
  unfold rules_get. now rewrite lookup_empty.
Qed.

Lemma flags_independent_of_weights_witness :
  blank sample_email = false
  /\ nlp sample_detector
     = nlp {| nlp := sample_nlp; config := PyDict [];
              suspicious_patterns := suspicious_patterns sample_detector;
              scoring_rules := ∅ |}
  /\ suspicious_patterns sample_detector
     = suspicious_patterns
         {| nlp := sample_nlp; config := PyDict [];
            suspicious_patterns := suspicious_patterns sample_detector;
            scoring_rules := ∅ |}
  /\ exists score score' flags,
       fst (analyze_email sample_env (PyStr sample_email)
              (Machine sample_detector []))
       = Return (score, flags)
       /\ fst (analyze_email sample_env (PyStr sample_email)
                 (Machine
                    {| nlp := sample_nlp; config := PyDict [];
                       suspicious_patterns :=
                         suspicious_patterns sample_detector;
                       scoring_rules := ∅ |}
                    []))
          = Return (score', flags)
       /\ (scoring_rules
             {| nlp := sample_nlp; config := PyDict [];
                suspicious_patterns := suspicious_patterns sample_detector;
                scoring_rules := ∅ |}
           = ∅ -> score' = 0%Z).
Proof.
  split; [reflexivity|]. split; [reflexivity|]. split; [reflexivity|].
  apply (flags_independent_of_weights sample_env sample_detector
           {| nlp := sample_nlp; config := PyDict [];
              suspicious_patterns := suspicious_patterns sample_detector;
              scoring_rules := ∅ |}
           [] sample_email); reflexivity.
Defined.

(** X14: with an empty table of patterns no regular expression is tried;
    the result rests on the pipeline alone: no score and no flag when it
    finds an [ORG] entity, the weight of [missing_organization] (0 when
    unset) and the one flag when it finds none. *)
Theorem analyze_email_no_patterns
    (E : Env) (d : PhishingDetector) (tr : list event) (s : pystr) :
  suspicious_patterns d = [] ->
  blank s = false ->
  analyze_email E (PyStr s) (Machine d tr)
  = (Return (if existsb (fun ent => bool_decide (label_ ent = py "ORG"))
                  (ents (nlp d s))
             then (0%Z, [])
             else (default 0%Z (scoring_rules d !! py "missing_organization"),
                   [py "No organization detected"])),
     Machine d (tr ++ [NlpCall s])).
Proof.
  intros Hp Hb. rewrite analyze_email_run by exact Hb. rewrite Hp.
  reflexivity.
Qed.

Lemma analyze_email_no_patterns_witness :
  suspicious_patterns (with_patterns sample_detector []) = []
  /\ blank sample_email = false
  /\ analyze_email sample_env (PyStr sample_email)
       (Machine (with_patterns sample_detector []) [])
     = (Return (2%Z, [py "No organization detected"]),
        Machine (with_patterns sample_detector []) [NlpCall sample_email]).
Proof.
  split; [reflexivity|]. split; [reflexivity|].
  apply (analyze_email_no_patterns sample_env
           (with_patterns sample_detector []) [] sample_email);
    reflexivity.
Defined.

(** ** [print_results] and the report of an analysis *)

Lemma verdict_thresholds (score : Z) :
  (verdict score = likely_phishing <-> (7 <= score)%Z)
  /\ (verdict score = suspicious <-> (4 <= score < 7)%Z)
  /\ (verdict score = safe <-> (score < 4)%Z).
Proof.
  assert (Hls : likely_phishing <> suspicious) by discriminate.
  assert (Hlf : likely_phishing <> safe) by discriminate.
  assert (Hsf : suspicious <> safe) by discriminate.
  unfold verdict.
  destruct (Z.leb_spec 7 score) as [H7|H7];
    [|destruct (Z.leb_spec 4 score) as [H4|H4];
      destruct (Z.ltb_spec score 7) as [H7'|H7']; cbn [andb]];
    repeat match goal with
      | |- _ /\ _ => split
      | |- _ <-> _ => split
      end;
    intros; try lia; try reflexivity; congruence.
Qed.

Lemma severity_verdict (score : Z) :
  severity (verdict score)
  = if (7 <=? score)%Z then 2 else if (4 <=? score)%Z then 1 else 0.
Proof.
  unfold verdict.
  destruct (7 <=? score)%Z eqn:H7; [reflexivity|].
  destruct (4 <=? score)%Z eqn:H4; cbn [andb]; [|reflexivity].
  replace (score <? 7)%Z with true by lia. reflexivity.
Qed.

(** X16: the verdict is monotone in the score: a higher score never gets
    a milder verdict, whatever the flags. *)
Theorem verdict_monotone
    (score score' : Z) (flags flags' : list pystr) (d : PhishingDetector)
    (tr : list event) :
  (score <= score')%Z ->
  exists v v',
    last (trace (snd (print_results score flags (Machine d tr))))
    = Some (Stdout v)
    /\ last (trace (snd (print_results score' flags' (Machine d tr))))
       = Some (Stdout v')
    /\ severity v <= severity v'.
Proof.
  intros Hle. rewrite !print_results_run. cbn [snd trace].
  rewrite !app_assoc, !last_snoc.
  exists (verdict score), (verdict score').
  split; [reflexivity|]. split; [reflexivity|].
  rewrite !severity_verdict.
  destruct (Z.leb_spec 7 score), (Z.leb_spec 7 score'),
    (Z.leb_spec 4 score), (Z.leb_spec 4 score'); lia.
Qed.

Lemma verdict_monotone_witness :
  (3 <= 9)%Z
  /\ exists v v',
       last (trace (snd (print_results 3 [] (Machine sample_detector []))))
       = Some (Stdout v)
       /\ last (trace (snd (print_results 9 [py "link found: http"]
                              (Machine sample_detector []))))
          = Some (Stdout v')
       /\ severity v <= severity v'.
Proof.
  split; [lia|].
  apply (verdict_monotone 3 9 [] [py "link found: http"] sample_detector []).
  lia.
Defined.

(** X17: analysis and report together, as [main] chains them.  For a
    valid text the last line printed is the verdict of the total that the
    configuration gives: the sum, over the entries the text triggers, of
    the weight [scoring_rules] holds for the label (0 when none), plus
    the weight of [missing_organization] when no [ORG] entity is found.
    It is the phishing line from 7 on, the suspicious line from 4 to 6 and
    the safe line below 4; the detector is as it was. *)
Theorem report_of_analysis
    (E : Env) (d : PhishingDetector) (tr : list event) (s : pystr) :
  blank s = false ->
  exists out v total,
    analyze_and_report E (PyStr s) (Machine d tr)
    = (Return tt, Machine d (out ++ [Stdout v]))
    /\ total
       = (foldr Z.add 0
            ((fun entry => default 0 (scoring_rules d !! fst entry))
               <$> List.filter (triggered E s) (suspicious_patterns d))
          + (if org_found d s then 0
             else default 0 (scoring_rules d !! py "missing_organization")))%Z
    /\ (v = likely_phishing <-> (7 <= total)%Z)
    /\ (v = suspicious <-> (4 <= total < 7)%Z)
    /\ (v = safe <-> (total < 4)%Z).
Proof.
  intros Hb. unfold analyze_and_report, bind.
  rewrite analyze_email_run by exact Hb.
  rewrite print_results_run.
  pose proof (patterns_score_triggered E (scoring_rules d) s
                (suspicious_patterns d)) as Hs.
  unfold rules_get in Hs.
  eexists _, _, _. split; [rewrite !app_assoc; reflexivity|].
  split; [reflexivity|]. rewrite <- Hs.
  destruct (org_found d s); cbn [fst]; rewrite ?Z.add_0_r;
    apply verdict_thresholds.
Qed.

Lemma report_of_analysis_witness :
  blank sample_email = false
  /\ exists out v total,
       analyze_and_report sample_env (PyStr sample_email)
         (Machine sample_detector [])
       = (Return tt, Machine sample_detector (out ++ [Stdout v]))
       /\ total = 10%Z
       /\ v = likely_phishing.
Proof.
  split; [reflexivity|].
  destruct (report_of_analysis sample_env sample_detector [] sample_email
              eq_refl) as (out & v & total & Hrun & Ht & Hl & _).
  exists out, v, total. split; [exact Hrun|].
  assert (H10 : total = 10%Z) by (rewrite Ht; reflexivity).
  split; [exact H10|]. apply Hl. rewrite H10. discriminate.
Defined.

Lemma patterns_quiet (E : Env) (rules : gmap pystr Z) (s : pystr)
    (items : list (pystr * pystr)) :
  (forall entry, entry ∈ items -> re_findall E (snd entry) s = inr []) ->
  patterns_score E rules s items = 0%Z /\ patterns_flags E s items = [].
Proof.
  unfold patterns_score, patterns_flags.
  induction items as [|e items IH]; intros H; [split; reflexivity|].
  destruct IH as [IH1 IH2].
  { intros entry Hin. apply H. now apply elem_of_cons; right. }
  rewrite !fmap_cons. cbn [foldr concat]. rewrite IH1, IH2.
  unfold entry_score, entry_flags, triggered.
  rewrite (H e) by (apply elem_of_cons; now left). split; reflexivity.
Qed.

(** X18: a text that no pattern matches and in which the pipeline finds an
    organisation scores 0 with no flag, and its report reads score 0,
    ["- None"] and the safe verdict. *)
Theorem quiet_text_report
    (E : Env) (d : PhishingDetector) (tr : list event) (s : pystr) :
  blank s = false ->
  (forall entry,
      entry ∈ suspicious_patterns d -> re_findall E (snd entry) s = inr []) ->
  (exists ent, ent ∈ ents (nlp d s) /\ label_ ent = py "ORG") ->
  fst (analyze_email E (PyStr s) (Machine d tr)) = Return (0%Z, [])
  /\ analyze_and_report E (PyStr s) (Machine d tr)
     = (Return tt,
        Machine d
          (tr ++ ((fun entry => ReFindall (snd entry) s)
                    <$> suspicious_patterns d)
              ++ [ NlpCall s;
                   Stdout (py "=== PHISHING DETECTION RESULTS ===");
                   Stdout (py "Email Analysis Score: 0");
                   Stdout (py "Flags:");
                   Stdout (py "- None");
                   Stdout safe ])).
Proof.
  intros Hb Hq Horg. apply org_found_iff in Horg.
  destruct (patterns_quiet E (scoring_rules d) s _ Hq) as [Hs Hf].
  unfold analyze_and_report, bind.
  rewrite analyze_email_run by exact Hb. rewrite Horg, Hs, Hf.
  split; [reflexivity|]. cbn [fst snd]. rewrite print_results_run.
  rewrite <- !app_assoc. reflexivity.
Qed.

Lemma quiet_text_report_witness :
  blank quiet_email = false
  /\ (forall entry,
        entry ∈ suspicious_patterns
                  (with_patterns sample_detector
                     [(py "urgency", py "urgent"); (py "link", py "http")]) ->
        re_findall sample_env (snd entry) quiet_email = inr [])
  /\ (exists ent,
        ent ∈ ents (nlp (with_patterns sample_detector
                           [(py "urgency", py "urgent");
                            (py "link", py "http")]) quiet_email)
        /\ label_ ent = py "ORG")
  /\ fst (analyze_email sample_env (PyStr quiet_email)
            (Machine
               (with_patterns sample_detector
                  [(py "urgency", py "urgent"); (py "link", py "http")])
               []))
     = Return (0%Z, []).
Proof.
  assert (Hq : forall entry,
             entry ∈ suspicious_patterns
                       (with_patterns sample_detector
                          [(py "urgency", py "urgent");
                           (py "link", py "http")]) ->
             re_findall sample_env (snd entry) quiet_email = inr []).
  { intros entry Hin. cbn [with_patterns suspicious_patterns] in Hin.
    apply elem_of_cons in Hin as [->|Hin]; [reflexivity|].
    apply list_elem_of_singleton in Hin as ->. reflexivity. }
  assert (Horg : exists ent,
             ent ∈ ents (nlp (with_patterns sample_detector
                                [(py "urgency", py "urgent");
                                 (py "link", py "http")]) quiet_email)
             /\ label_ ent = py "ORG").
  { exists {| text := py "Acme Bank"; label_ := py "ORG" |}.
    split; [|reflexivity]. apply list_elem_of_singleton. reflexivity. }
  split; [reflexivity|]. split; [exact Hq|]. split; [exact Horg|].
  apply (quiet_text_report sample_env
           (with_patterns sample_detector
              [(py "urgency", py "urgent"); (py "link", py "http")])
           [] quiet_email); [reflexivity | exact Hq | exact Horg].
Defined.

(** ** The methods when a library call ends outside its contract *)




Lemma raw_check_pattern_run
    (F : Faults) (E : Env) (s label pattern : pystr) (score : Z)
    (flags : list pystr) (d : PhishingDetector) (tr : list event) :
  Raw.check_pattern F E s label pattern (score, flags) (Machine d tr)
  = (match findall_result F E pattern s with
     | inl e =>
         match exc_type e with
         | re_error =>
             Return (score, flags ++ [invalid_flag label (exc_str e)])
         | _ => Raise e
         end
     | inr [] => Return (score, flags)
     | inr matches =>
         Return ((score + rules_get (scoring_rules d) label)%Z,
                 flags ++ [found_flag E label matches])
     end,
     Machine d (tr ++ [ReFindall pattern s])).
Proof.
  unfold Raw.check_pattern, Raw.findall. run_py.
  destruct (findall_result F E pattern s) as [[c msg]|[|m ms]]; run_py;
    [destruct c|..]; reflexivity.
Qed.

(** The loop stops at the first entry for which [re.findall] raises
    something that is not [re.error], and passes it on. *)
Lemma raw_for_patterns_raise
    (F : Faults) (E : Env) (s : pystr) (d : PhishingDetector)
    (items : list (pystr * pystr)) :
  forall (acc : Z * list pystr) (tr : list event) (e : exn)
         (m' : machine PhishingDetector),
    Raw.for_patterns F E s items acc (Machine d tr) = (Raise e, m') ->
    exists pre label pattern post,
      items = pre ++ (label, pattern) :: post
      /\ findall_result F E pattern s = inl e
      /\ exc_type e <> re_error
      /\ m' = Machine d (tr ++ ((fun entry => ReFindall (snd entry) s) <$> pre)
                            ++ [ReFindall pattern s]).
Proof.
  induction items as [|[label pattern] rest IH]; intros [score flags] tr e m' H.
  - discriminate H.
  - cbn [Raw.for_patterns] in H. unfold bind at 1 in H.
    rewrite raw_check_pattern_run in H.
    destruct (findall_result F E pattern s) as [[c msg]|ms] eqn:Hf.
    + assert (Hstop : c <> re_error ->
                exists pre label0 pattern0 post,
                  (label, pattern) :: rest
                  = pre ++ (label0, pattern0) :: post
                  /\ findall_result F E pattern0 s = inl e
                  /\ exc_type e <> re_error
                  /\ m' = Machine d
                            (tr ++ ((fun entry => ReFindall (snd entry) s)
                                      <$> pre)
                                ++ [ReFindall pattern0 s])).
      { intros Hc. exists [], label, pattern, rest.
        destruct c; try congruence; cbn [exc_type] in H;
          injection H as <- <-; repeat split; try exact Hf; exact Hc. }
      destruct c; try (apply Hstop; discriminate).
      cbn [exc_type] in H. apply IH in H
        as (pre & l0 & p0 & post & -> & Hr & Hne & ->).
      exists ((label, pattern) :: pre), l0, p0, post.
      repeat split; try assumption.
      rewrite fmap_cons, <- !app_assoc. reflexivity.
    + assert (Hgo : forall acc',
                Raw.for_patterns F E s rest acc'
                  (Machine d (tr ++ [ReFindall pattern s])) = (Raise e, m') ->
                exists pre label0 pattern0 post,
                  (label, pattern) :: rest
                  = pre ++ (label0, pattern0) :: post
                  /\ findall_result F E pattern0 s = inl e
                  /\ exc_type e <> re_error
                  /\ m' = Machine d
                            (tr ++ ((fun entry => ReFindall (snd entry) s)
                                      <$> pre)
                                ++ [ReFindall pattern0 s])).
      { intros acc' H'. apply IH in H'
          as (pre & l0 & p0 & post & -> & Hr & Hne & ->).
        exists ((label, pattern) :: pre), l0, p0, post.
        repeat split; try assumption.
        rewrite fmap_cons, <- !app_assoc. reflexivity. }
      destruct ms; exact (Hgo _ H).
Qed.

Lemma raw_for_patterns_return
    (F : Faults) (E : Env) (s : pystr) (d : PhishingDetector)
    (items : list (pystr * pystr)) :
  forall (acc acc' : Z * list pystr) (tr : list event)
         (m' : machine PhishingDetector),
    Raw.for_patterns F E s items acc (Machine d tr) = (Return acc', m') ->
    m' = Machine d (tr ++ ((fun entry => ReFindall (snd entry) s) <$> items)).
Proof.
  induction items as [|[label pattern] rest IH];
    intros [score flags] acc' tr m' H.
  - injection H as _ <-. now rewrite app_nil_r.
  - cbn [Raw.for_patterns] in H. unfold bind at 1 in H.
    rewrite raw_check_pattern_run in H. rewrite fmap_cons. cbn [snd].
    change (ReFindall pattern s
            :: ((fun entry => ReFindall (snd entry) s) <$> rest))
      with ([ReFindall pattern s]
              ++ ((fun entry => ReFindall (snd entry) s) <$> rest)).
    rewrite app_assoc.
    destruct (findall_result F E pattern s) as [[c msg]|[|m ms]];
      [destruct c; try discriminate H|..]; exact (IH _ _ _ _ H).
Qed.

(** X7: the exceptions that leave [analyze_email].  One that does is the
    [ValueError] of the guard, raised before any call for an argument
    that is not a [str] or has white space only; or it is what
    [re.findall] raised for an entry, of a class other than [re.error],
    passed on as it was, with no later entry tried and the pipeline not
    called; or it is what the pipeline raised, passed on as it was after
    every entry was tried. *)
Theorem analyze_email_raises_only
    (F : Faults) (E : Env) (d : PhishingDetector) (tr : list event)
    (v : pyval) (e : exn) (m' : machine PhishingDetector) :
  Raw.analyze_email F E v (Machine d tr) = (Raise e, m') ->
  (e = Exc ValueError (py "Invalid or empty email text")
   /\ m' = Machine d tr
   /\ (isinstance_str v = false
       \/ exists s, v = PyStr s /\ forallb py_isspace s = true))
  \/ (exists s pre label pattern post,
        v = PyStr s /\ forallb py_isspace s = false
        /\ suspicious_patterns d = pre ++ (label, pattern) :: post
        /\ findall_result F E pattern s = inl e
        /\ exc_type e <> re_error
        /\ m' = Machine d
                  (tr ++ ((fun entry => ReFindall (snd entry) s) <$> pre)
                      ++ [ReFindall pattern s]))
  \/ (exists s,
        v = PyStr s /\ forallb py_isspace s = false
        /\ nlp_result F (nlp d) s = inl e
        /\ m' = Machine d
                  (tr ++ ((fun entry => ReFindall (snd entry) s)
                            <$> suspicious_patterns d)
                      ++ [NlpCall s])).
Proof.
  destruct v as [| | | |s| | |];
    try (intros H; injection H as <- <-; left;
         split; [reflexivity|]; split; [reflexivity|]; left; reflexivity).
  unfold Raw.analyze_email. rewrite guard_blank.
  change (forallb py_isspace s) with (blank s). destruct (blank s) eqn:Hb.
  - intros H. injection H as <- <-. left.
    split; [reflexivity|]. split; [reflexivity|]. right. now exists s.
  - unfold bind at 1, gets. cbn [self]. unfold bind at 1.
    destruct (Raw.for_patterns F E s (suspicious_patterns d) (0%Z, [])
                (Machine d tr)) as [[[score flags]|e0] m0] eqn:Hloop.
    + apply raw_for_patterns_return in Hloop as ->.
      unfold Raw.check_organization. run_py.
      destruct (nlp_result F (nlp d) s) as [e0|doc] eqn:Hn.
      * intros H. injection H as <- <-. right. right. exists s.
        rewrite <- app_assoc. repeat split; assumption.
      * destruct (text <$> List.filter _ (ents doc)); discriminate.
    + apply raw_for_patterns_raise in Hloop
        as (pre & label & pattern & post & Hp & Hr & Hne & ->).
      intros H. injection H as <- <-. right. left.
      exists s, pre, label, pattern, post. repeat split; assumption.
Qed.

Lemma analyze_email_raises_only_witness :
  Raw.analyze_email sample_faults sample_env (PyStr sample_email)
    (Machine overflow_detector [])
  = (Raise (Exc OverflowError (py "the repetition number is too large")),
     Machine overflow_detector
       [ ReFindall (py "urgent") sample_email;
         ReFindall (py "a{4294967296}") sample_email ])
  /\ exists s pre label pattern post,
       PyStr sample_email = PyStr s /\ forallb py_isspace s = false
       /\ suspicious_patterns overflow_detector
          = pre ++ (label, pattern) :: post
       /\ findall_result sample_faults sample_env pattern s
          = inl (Exc OverflowError (py "the repetition number is too large"))
       /\ exc_type (Exc OverflowError (py "the repetition number is too large"))
          <> re_error
       /\ Machine overflow_detector
            [ ReFindall (py "urgent") sample_email;
              ReFindall (py "a{4294967296}") sample_email ]
          = Machine overflow_detector
              ([] ++ ((fun entry => ReFindall (snd entry) s) <$> pre)
                  ++ [ReFindall pattern s]).
Proof.
  split; [reflexivity|].
  destruct (analyze_email_raises_only sample_faults sample_env
              overflow_detector [] (PyStr sample_email) _ _ eq_refl)
    as [(H & _)|[H|(s & Hv & _ & H & _)]].
  - discriminate H.
  - exact H.
  - injection Hv as <-. discriminate H.
Defined.

Lemma raw_py_print_ok {O} (F : Faults) (line : pystr) :
  print_fault F line = None -> @Raw.py_print O F line = py_print line.
Proof. intros H. unfold Raw.py_print. now rewrite H. Qed.

Lemma for_each_ext {O A} (f g : A -> M O unit) (xs : list A) :
  (forall x, f x = g x) -> for_each f xs = for_each g xs.
Proof.
  intros H. induction xs as [|x xs IH]; [reflexivity|].
  cbn [for_each]. now rewrite H, IH.
Qed.

Lemma bind_ret_l {O A B} (a : A) (k : A -> M O B) : bind (ret a) k = k a.
Proof. reflexivity. Qed.

(** With a standard output that takes every line and a score that has a
    decimal form, [print_results] runs as its contract model does. *)
Lemma raw_print_results_contract
    (F : Faults) (score : Z) (flags : list pystr)
    (m : machine PhishingDetector) :
  format_fault F score = None ->
  (forall line, print_fault F line = None) ->
  Raw.print_results F score flags m = print_results score flags m.
Proof.
  intros Hf Hp. unfold Raw.print_results, print_results, format_result.
  rewrite Hf. unfold lift. rewrite bind_ret_l.
  rewrite (for_each_ext (fun flag => Raw.py_print F (py "- " ++ flag))
             (fun flag => py_print (py "- " ++ flag)))
    by (intros flag; apply raw_py_print_ok, Hp).
  rewrite !(raw_py_print_ok F) by apply Hp.
  reflexivity.
Qed.

(** X15: what [print_results] prints where the standard output takes every
    line and the score has a decimal form: the heading, the score in
    decimal, ["Flags:"], one line ["- flag"] per flag in order (the one
    line ["- None"] when there is no flag), and last the verdict, which
    is the phishing line from 7 on, the suspicious line from 4 on and the
    safe line below: [4 + max 1 n] lines for [n] flags.  A report cannot
    tell no flag from the one flag ["None"]. *)
Theorem print_results_lines
    (F : Faults) (score : Z) (flags : list pystr) (d : PhishingDetector)
    (tr : list event) :
  format_fault F score = None ->
  (forall line, print_fault F line = None) ->
  (exists lines : list pystr,
      Raw.print_results F score flags (Machine d tr)
      = (Return tt, Machine d (tr ++ (Stdout <$> lines)))
      /\ length lines = 4 + Nat.max 1 (length flags)
      /\ take 3 lines
         = [ py "=== PHISHING DETECTION RESULTS ===";
             py "Email Analysis Score: " ++ py (pretty score);
             py "Flags:" ]
      /\ (forall i flag,
            flags !! i = Some flag -> lines !! (3 + i) = Some (py "- " ++ flag))
      /\ (flags = [] -> lines !! 3 = Some (py "- None"))
      /\ last lines
         = Some (if (7 <=? score)%Z then likely_phishing
                 else if (4 <=? score)%Z then suspicious else safe))
  /\ Raw.print_results F score [] (Machine d tr)
     = Raw.print_results F score [py "None"] (Machine d tr).
Proof.
  intros Hf Hp. rewrite !raw_print_results_contract by assumption.
  split; [|now rewrite !print_results_run].
  rewrite print_results_run.
  exists ([ py "=== PHISHING DETECTION RESULTS ===";
            py "Email Analysis Score: " ++ py (pretty score);
            py "Flags:" ]
          ++ ((fun flag => py "- " ++ flag)
                <$> match flags with [] => [py "None"] | _ :: _ => flags end)
          ++ [verdict score]).
  split; [|split; [|split; [|split; [|split]]]].
  - unfold report_head. rewrite !fmap_app, <- list_fmap_compose.
    rewrite <- !app_assoc. reflexivity.
  - rewrite !length_app, length_fmap. cbn [length].
    destruct flags; cbn [length]; lia.
  - reflexivity.
  - intros i flag Hi.
    rewrite lookup_app_r by (cbn [length]; lia).
    cbn [length]. replace (3 + i - 3) with i by lia.
    destruct flags as [|f fs]; [now rewrite lookup_nil in Hi|].
    rewrite lookup_app_l
      by (rewrite length_fmap; now apply lookup_lt_Some in Hi).
    rewrite list_lookup_fmap, Hi. reflexivity.
  - intros ->. reflexivity.
  - rewrite !app_assoc, last_snoc. unfold verdict.
    destruct (7 <=? score)%Z eqn:H7; [reflexivity|].
    destruct (4 <=? score)%Z; cbn [andb]; [|reflexivity].
    replace (score <? 7)%Z with true by lia. reflexivity.
Qed.

Lemma print_results_lines_witness :
  format_fault sample_faults 5 = None
  /\ (forall line, print_fault sample_faults line = None)
  /\ Raw.print_results sample_faults 5 [py "link found: http"]
       (Machine sample_detector [])
     = (Return tt,
        Machine sample_detector
          (Stdout
             <$> [ py "=== PHISHING DETECTION RESULTS ===";
                   py "Email Analysis Score: 5";
                   py "Flags:";
                   py "- link found: http";
                   suspicious ]))
  /\ Raw.print_results sample_faults 5 [] (Machine sample_detector [])
     = Raw.print_results sample_faults 5 [py "None"]
         (Machine sample_detector []).
Proof.
  split; [reflexivity|]. split; [reflexivity|]. split; [reflexivity|].
  apply (print_results_lines sample_faults 5 [] sample_detector []);
    reflexivity.
Defined.
